(** * User serializers of the API integration layer

    A shallow embedding of [edx_solutions_api_integration/users/serializers.py]:
    the dynamic field selector [DynamicFieldsModelSerializer], the user
    representation builder [UserSerializer] and its reduced variant
    [SimpleUserSerializer], together with the properties their specification
    states about them.

    Python values are embedded as a small JSON-like value type, Python
    exceptions as an error monad, dictionaries owned by the ORM as finite
    maps, and the ordered field mapping of a serializer as an association
    list in declaration order. *)

From Stdlib Require Import ZArith Ascii String List Bool.
From stdpp Require Import gmap strings list fin_maps.

Local Open Scope string_scope.
Set Warnings "-register-all".

(** ** Python values and exceptions *)

(** The values a serializer hands to the renderer.  A float is carried by
    its textual form: the code under study never computes with one. *)
Inductive value : Type :=
| VNull
| VBool (b : bool)
| VInt (z : Z)
| VFloat (repr : string)
| VStr (s : string)
| VList (items : list value)
| VDict (entries : list (string * value)).

(** The exception classes that occur in the module. *)
Inductive exn : Type :=
| KeyError
| TypeError
| ValueError
| ObjectDoesNotExist.

(** A computation either returns or raises. *)
Inductive res (A : Type) : Type :=
| Ok (a : A)
| Raise (e : exn).

Arguments Ok {A} a.
Arguments Raise {A} e.

#[export] Instance res_ret : MRet res := fun A a => Ok a.

#[export] Instance res_bind : MBind res := fun A B k m =>
  match m with
  | Ok a => k a
  | Raise e => Raise e
  end.

Definition exn_eqb (a b : exn) : bool :=
  match a, b with
  | KeyError, KeyError | TypeError, TypeError
  | ValueError, ValueError | ObjectDoesNotExist, ObjectDoesNotExist => true
  | _, _ => false
  end.

(** Sequential evaluation of a list of computations, first failure wins. *)
Fixpoint sequence {A : Type} (ms : list (res A)) : res (list A) :=
  match ms with
  | [] => Ok []
  | m :: rest => a ← m; r ← sequence rest; Ok (a :: r)
  end.

(** ** Python string primitives *)

(** [s.split(sep)] for a one-character separator: every occurrence of the
    separator cuts, empty pieces are kept, nothing is trimmed. *)
Fixpoint split (sep : ascii) (s : string) : list string :=
  match s with
  | EmptyString => [EmptyString]
  | String c rest =>
      if Ascii.eqb c sep then EmptyString :: split sep rest
      else match split sep rest with
           | [] => [String c EmptyString]
           | piece :: pieces => String c piece :: pieces
           end
  end.

(** [sep.join(pieces)]. *)
Fixpoint join (sep : string) (pieces : list string) : string :=
  match pieces with
  | [] => EmptyString
  | [piece] => piece
  | piece :: rest => piece +:+ sep +:+ join sep rest
  end.

(** Truth value of an optional string: [None] and [""] are false. *)
Definition truthy (o : option string) : bool :=
  match o with
  | None => false
  | Some s => negb (String.eqb s EmptyString)
  end.

(** [needle in haystack] on strings. *)
Fixpoint substring_of (needle haystack : string) : bool :=
  String.prefix needle haystack
  || match haystack with
     | EmptyString => false
     | String _ rest => substring_of needle rest
     end.

(** ** Request and serializer context *)

(** The request exposes its query string as a mapping; [query_params.get]
    is the lookup of that mapping. *)
Record Request : Type := { query_params : gmap string string }.

(** The serializer context is a dictionary with up to three entries, each
    of which may be missing. *)
Record Context : Type := {
  request : option Request;
  default_fields : option string;
  course_id : option string
}.

(** [d.get(key, default)]. *)
Definition get (d : gmap string string) (key : string)
    (dflt : option string) : option string :=
  match d !! key with
  | Some v => Some v
  | None => dflt
  end.

(** ** The dynamic field selector *)

Module DynamicFieldsModelSerializer.
Section Fields.

  (** [F] is whatever a declared field carries. *)
Context {F : Type}.

Definition keys (fields : list (string * F)) : list string := fields.*1.

  (** [fields.pop(name)]: the entry is removed; a missing key raises. *)
Definition pop (name : string) (fields : list (string * F))
      : res (list (string * F)) :=
    if bool_decide (name ∈ keys fields)
    then Ok (filter (fun entry => entry.1 ≠ name) fields)
    else Raise KeyError.

  (** The loop [for field_name in names: self.fields.pop(field_name)]. *)
Fixpoint pop_each (names : list string) (fields : list (string * F))
      : res (list (string * F)) :=
    match names with
    | [] => Ok fields
    | name :: rest => fields' ← pop name fields; pop_each rest fields'
    end.

  (** The value of the local [fields] when line 29 tests it. *)
Definition requested (req : Request) (ctx : Context) : option string :=
    let fields := get (query_params req) "fields" None in
    match default_fields ctx with
    | Some dflt =>
        if negb (truthy fields) then
          let additional_fields :=
            default EmptyString
              (get (query_params req) "additional_fields" (Some EmptyString)) in
          Some (join "," [dflt; additional_fields])
        else fields
    | None => fields
    end.

  (** The constructor, after the superclass has installed the declared
      fields: it returns the field mapping the instance ends up with. *)
Definition __init__ (declared : list (string * F)) (ctx : Context)
      : res (list (string * F)) :=
    match request ctx with
    | None => Ok declared
    | Some req =>
        let fields := requested req ctx in
        if truthy fields then
          let fields := split "," (default EmptyString fields) in
          let allowed : gset string := list_to_set fields in
          let existing : gset string := list_to_set (keys declared) in
          pop_each (elements (existing ∖ allowed)) declared
        else Ok declared
    end.

End Fields.
End DynamicFieldsModelSerializer.

(** Rendering: every field still installed contributes one entry, in
    declaration order; a field whose value cannot be computed aborts the
    rendering with its exception. *)
Definition to_representation {I : Type}
    (fields : list (string * (I -> res value))) (instance : I)
    : res (list (string * value)) :=
  sequence (map (fun field => v ← field.2 instance; Ok (field.1, v)) fields).

(** ** The JSON decoder

    [json.loads] of the Python standard library, restricted to what it does
    on a text: skip blanks, decode one value, skip blanks, and reject
    anything left over.  A decoding failure raises [ValueError].  Text is a
    sequence of bytes in UTF-8, so an escaped code point is stored as its
    UTF-8 encoding.  The interpreter's limit on nesting is not part of the
    model: what is proved of the callers takes the outcome of [loads] as
    it comes and assumes nothing on which exceptions it may raise. *)
Module json.

Definition code (c : ascii) : N := N_of_ascii c.

Definition is_blank (c : ascii) : bool :=
  (code c =? 32)%N || (code c =? 9)%N || (code c =? 10)%N || (code c =? 13)%N.

Definition is_digit (c : ascii) : bool :=
  (48 <=? code c)%N && (code c <=? 57)%N.

Fixpoint skip_blanks (s : string) : string :=
  match s with
  | String c rest => if is_blank c then skip_blanks rest else s
  | EmptyString => s
  end.

(** Longest prefix of digits, and the rest. *)
Fixpoint digits (s : string) : string * string :=
  match s with
  | String c rest =>
      if is_digit c
      then let '(ds, rest') := digits rest in (String c ds, rest')
      else (EmptyString, s)
  | EmptyString => (EmptyString, s)
  end.

Fixpoint decimal (acc : Z) (ds : string) : Z :=
  match ds with
  | String c rest => decimal (10 * acc + Z.of_N (code c - 48)) rest
  | EmptyString => acc
  end.

(** If [s] starts with [lit], what follows it. *)
Fixpoint after (lit s : string) : option string :=
  match lit, s with
  | EmptyString, _ => Some s
  | String a lit', String b s' => if Ascii.eqb a b then after lit' s' else None
  | String _ _, EmptyString => None
  end.

(** The double quote, as a one-character text. *)
Definition quote : string := String "034" EmptyString.

(** The parts of a number: an optional minus sign; either a single zero
    or a digit run that does not start with zero; optionally a point with
    at least one digit; optionally an exponent mark with an optional sign
    and at least one digit.  Each part returns its text and the rest. *)
Definition scan_sign (s : string) : string * string :=
  match after "-" s with
  | Some rest => ("-", rest)
  | None => (EmptyString, s)
  end.

Definition scan_integer (s : string) : option (string * string) :=
  match after "0" s with
  | Some rest => Some ("0", rest)
  | None =>
      match digits s with
      | (EmptyString, _) => None
      | found => Some found
      end
  end.

Definition scan_fraction (s : string) : string * string :=
  match after "." s with
  | Some rest =>
      match digits rest with
      | (EmptyString, _) => (EmptyString, s)
      | (ds, rest') => ("." +:+ ds, rest')
      end
  | None => (EmptyString, s)
  end.

Definition scan_exponent (s : string) : string * string :=
  match s with
  | String e rest =>
      if Ascii.eqb e "e" || Ascii.eqb e "E" then
        let '(esign, rest1) :=
          match after "-" rest, after "+" rest with
          | Some r, _ => ("-", r)
          | _, Some r => ("+", r)
          | _, _ => (EmptyString, rest)
          end in
        match digits rest1 with
        | (EmptyString, _) => (EmptyString, s)
        | (ds, rest') => (String e esign +:+ ds, rest')
        end
      else (EmptyString, s)
  | EmptyString => (EmptyString, s)
  end.

(** A number without fraction and exponent is an integer, any other is a
    float. *)
Definition scan_number (s : string) : option (value * string) :=
  let '(sign, s1) := scan_sign s in
  match scan_integer s1 with
  | None => None
  | Some (int, s2) =>
      let '(frac, s3) := scan_fraction s2 in
      let '(exp, s4) := scan_exponent s3 in
      match frac, exp with
      | EmptyString, EmptyString =>
          let n := decimal 0 int in
          Some (VInt (if String.eqb sign "-" then - n else n), s4)
      | _, _ => Some (VFloat (sign +:+ int +:+ frac +:+ exp), s4)
      end
  end.

(** The values that are neither text, array nor object, tried in the
    order of the decoder: the three literals, a number, the three names of
    non-finite floats. *)
Definition scan_literal (s : string) : option (value * string) :=
  match after "null" s, after "true" s, after "false" s with
  | Some rest, _, _ => Some (VNull, rest)
  | _, Some rest, _ => Some (VBool true, rest)
  | _, _, Some rest => Some (VBool false, rest)
  | _, _, _ =>
      match scan_number s with
      | Some found => Some found
      | None =>
          match after "NaN" s, after "Infinity" s, after "-Infinity" s with
          | Some rest, _, _ => Some (VFloat "NaN", rest)
          | _, Some rest, _ => Some (VFloat "Infinity", rest)
          | _, _, Some rest => Some (VFloat "-Infinity", rest)
          | _, _, _ => None
          end
      end
  end.

Definition hex_digit (c : ascii) : option N :=
  let n := code c in
  if is_digit c then Some (n - 48)%N
  else if (97 <=? n)%N && (n <=? 102)%N then Some (n - 87)%N
  else if (65 <=? n)%N && (n <=? 70)%N then Some (n - 55)%N
  else None.

Definition hex4 (a b c d : ascii) : option N :=
  a ← hex_digit a; b ← hex_digit b; c ← hex_digit c; d ← hex_digit d;
  Some (((a * 16 + b) * 16 + c) * 16 + d)%N.

Definition byte (n : N) : string := String (ascii_of_N n) EmptyString.

(** UTF-8 encoding of a code point. *)
Definition utf8 (cp : N) : string :=
  if (cp <? 128)%N then byte cp
  else if (cp <? 2048)%N then
    byte (192 + cp / 64) +:+ byte (128 + cp mod 64)
  else if (cp <? 65536)%N then
    byte (224 + cp / 4096) +:+ byte (128 + (cp / 64) mod 64)
    +:+ byte (128 + cp mod 64)
  else
    byte (240 + cp / 262144) +:+ byte (128 + (cp / 4096) mod 64)
    +:+ byte (128 + (cp / 64) mod 64) +:+ byte (128 + cp mod 64).

(** The character a one-letter escape stands for. *)
Definition escape (e : ascii) : option ascii :=
  if Ascii.eqb e "034" then Some "034"%char
  else if Ascii.eqb e "\" then Some "\"%char
  else if Ascii.eqb e "/" then Some "/"%char
  else if Ascii.eqb e "b" then Some (ascii_of_N 8)
  else if Ascii.eqb e "f" then Some (ascii_of_N 12)
  else if Ascii.eqb e "n" then Some (ascii_of_N 10)
  else if Ascii.eqb e "r" then Some (ascii_of_N 13)
  else if Ascii.eqb e "t" then Some (ascii_of_N 9)
  else None.

(** The code point of a high surrogate [hi] followed by the escape of a
    low surrogate, when [b u l1 l2 l3 l4] is such an escape. *)
Definition surrogate_pair (hi : N) (b u l1 l2 l3 l4 : ascii) : option N :=
  if Ascii.eqb b "\" && Ascii.eqb u "u" then
    lo ← hex4 l1 l2 l3 l4;
    if (55296 <=? hi)%N && (hi <=? 56319)%N
       && (56320 <=? lo)%N && (lo <=? 57343)%N
    then Some (65536 + (hi - 55296) * 1024 + (lo - 56320))%N
    else None
  else None.

(** The body of a text after its opening quote, up to and including the
    closing quote.  Control characters must be escaped. *)
Fixpoint scan_string (s : string) : option (string * string) :=
  match s with
  | EmptyString => None
  | String c rest =>
      if Ascii.eqb c "034" then Some (EmptyString, rest)
      else if Ascii.eqb c "\" then
        match rest with
        | EmptyString => None
        | String e rest1 =>
            if Ascii.eqb e "u" then
              match rest1 with
              | String h1 (String h2 (String h3 (String h4 rest2))) =>
                  hi ← hex4 h1 h2 h3 h4;
                  let single :=
                    '(tail, remain) ← scan_string rest2;
                    Some (utf8 hi +:+ tail, remain) in
                  match rest2 with
                  | String b (String u (String l1 (String l2
                      (String l3 (String l4 rest3))))) =>
                      match surrogate_pair hi b u l1 l2 l3 l4 with
                      | Some cp =>
                          '(tail, remain) ← scan_string rest3;
                          Some (utf8 cp +:+ tail, remain)
                      | None => single
                      end
                  | _ => single
                  end
              | _ => None
              end
            else
              plain ← escape e;
              '(tail, remain) ← scan_string rest1;
              Some (String plain tail, remain)
        end
      else if (code c <? 32)%N then None
      else
        '(tail, remain) ← scan_string rest;
        Some (String c tail, remain)
  end.

(** [d[key] = v] on a dictionary kept as an association list. *)
Fixpoint dict_set (key : string) (v : value) (d : list (string * value))
    : list (string * value) :=
  match d with
  | [] => [(key, v)]
  | (k, w) :: rest =>
      if String.eqb k key then (k, v) :: rest
      else (k, w) :: dict_set key v rest
  end.

(** One value at the head of [s]; the items of an array after its opening
    bracket, to the closing one; the members of an object after its opening
    brace, to the closing one, [d] holding the members read so far.  The
    recursion is bounded by [fuel]. *)
Fixpoint scan_once (fuel : nat) (s : string) : option (value * string) :=
  match fuel with
  | O => None
  | S fuel =>
      match after quote s, after "{" s, after "[" s with
      | Some rest, _, _ =>
          '(text, remain) ← scan_string rest; Some (VStr text, remain)
      | _, Some rest, _ =>
          let inner := skip_blanks rest in
          match after "}" inner with
          | Some remain => Some (VDict [], remain)
          | None =>
              '(d, remain) ← scan_members fuel [] inner;
              Some (VDict d, remain)
          end
      | _, _, Some rest =>
          let inner := skip_blanks rest in
          match after "]" inner with
          | Some remain => Some (VList [], remain)
          | None =>
              '(items, remain) ← scan_items fuel inner;
              Some (VList items, remain)
          end
      | _, _, _ => scan_literal s
      end
  end
with scan_items (fuel : nat) (s : string) : option (list value * string) :=
  match fuel with
  | O => None
  | S fuel =>
      '(v, rest) ← scan_once fuel s;
      let rest := skip_blanks rest in
      match after "]" rest, after "," rest with
      | Some remain, _ => Some ([v], remain)
      | _, Some more =>
          '(vs, remain) ← scan_items fuel (skip_blanks more);
          Some (v :: vs, remain)
      | _, _ => None
      end
  end
with scan_members (fuel : nat) (d : list (string * value)) (s : string)
    : option (list (string * value) * string) :=
  match fuel with
  | O => None
  | S fuel =>
      rest ← after quote s;
      '(key, rest) ← scan_string rest;
      rest ← after ":" (skip_blanks rest);
      '(v, rest) ← scan_once fuel (skip_blanks rest);
      let d := dict_set key v d in
      let rest := skip_blanks rest in
      match after "}" rest, after "," rest with
      | Some remain, _ => Some (d, remain)
      | _, Some more => scan_members fuel d (skip_blanks more)
      | _, _ => None
      end
  end.

(** Fuel that the recursion never exhausts on [s]: more of it changes no
    result (lemma [decode_fuel] in the properties). *)
Definition enough (s : string) : nat := 2 * String.length s + 2.

Definition decode (s : string) : option value :=
  let text := skip_blanks s in
  '(v, rest) ← scan_once (enough text) text;
  match skip_blanks rest with
  | EmptyString => Some v
  | _ => None
  end.

Definition loads (s : string) : res value :=
  match decode s with
  | Some v => Ok v
  | None => Raise ValueError
  end.

End json.

(** ** The records the serializers read

    The records belong to the data layer; a serializer only reads them.  A
    point in time is carried by its ISO-8601 text, a float by its textual
    form, a course key by its string form and a user key by an integer. *)

(** The one-to-one extension of a user. *)
Record Profile : Type := {
  name : string;
  city : option string;
  title : option string;
  country : option string;
  profile_image_uploaded_at : option string
}.

Record CourseEnrollment : Type := {
  enrolled_course : string;
  enrollment_active : bool
}.

(** A user as the serializer receives it.  [profile] is [None] when no
    profile row points to the user; [courses_enrolled] is the attribute a
    view may have attached to the in-memory record, [None] when the
    instance has no such attribute.  Organizations are records of another
    package, hence the parameter. *)
Record User (Organization : Type) : Type := {
  pk : Z;
  email : string;
  username : string;
  first_name : string;
  last_name : string;
  date_joined : string;
  is_active : bool;
  is_staff : bool;
  last_login : option string;
  profile : option Profile;
  courses_enrolled : option value;
  courseenrollment_set : list CourseEnrollment;
  organizations : list Organization
}.

Arguments pk {Organization} _.
Arguments email {Organization} _.
Arguments username {Organization} _.
Arguments first_name {Organization} _.
Arguments last_name {Organization} _.
Arguments date_joined {Organization} _.
Arguments is_active {Organization} _.
Arguments is_staff {Organization} _.
Arguments last_login {Organization} _.
Arguments profile {Organization} _.
Arguments courses_enrolled {Organization} _.
Arguments courseenrollment_set {Organization} _.
Arguments organizations {Organization} _.

(** A role assignment: many rows per user. *)
Module CourseAccessRole.
Record row : Type := {
    user : Z;
    org : string;
    course_id : string;
    role : string
  }.
End CourseAccessRole.

(** A gradebook row.  The table holds one row per (user, course) pair, so
    it is a finite map from that pair. *)
Module StudentGradebook.
Record row : Type := {
    grade : string;
    proforma_grade : string;
    grade_summary : string
  }.
End StudentGradebook.

Record Database : Type := {
  course_access_roles : list CourseAccessRole.row;
  student_gradebooks : gmap (Z * string) StudentGradebook.row
}.

(** ** Operators on values *)

(** [key in v]: membership in the keys of a dictionary, in the items of a
    list, as a substring of a string; any other operand is not iterable. *)
Definition contains (key : string) (v : value) : res bool :=
  match v with
  | VDict entries => Ok (bool_decide (key ∈ entries.*1))
  | VList items =>
      Ok (existsb (fun item => match item with
                               | VStr s => String.eqb s key
                               | _ => false
                               end) items)
  | VStr s => Ok (substring_of key s)
  | _ => Raise TypeError
  end.

Fixpoint assoc {A : Type} (key : string) (entries : list (string * A))
    : option A :=
  match entries with
  | [] => None
  | (k, v) :: rest => if String.eqb k key then Some v else assoc key rest
  end.

(** [v[key]] for a string key: only a dictionary can be subscripted by a
    string. *)
Definition getitem (v : value) (key : string) : res value :=
  match v with
  | VDict entries =>
      match assoc key entries with
      | Some x => Ok x
      | None => Raise KeyError
      end
  | _ => Raise TypeError
  end.

Definition optional (o : option string) : value :=
  match o with
  | Some s => VStr s
  | None => VNull
  end.

(** ** Method bodies with local variables

    A method body runs over its assigned locals; when it raises, the
    assignments made so far stay in place. *)
Section Body.

Context {L : Type}.

Definition body (A : Type) : Type := L -> L * res A.

Definition body_ret {A : Type} (a : A) : body A := fun l => (l, Ok a).

Definition body_bind {A B : Type} (m : body A) (k : A -> body B) : body B :=
    fun l =>
      match m l with
      | (l', Ok a) => k a l'
      | (l', Raise e) => (l', Raise e)
      end.

  (** An expression evaluated inside a body. *)
Definition eval {A : Type} (r : res A) : body A := fun l => (l, r).

  (** An assignment to locals. *)
Definition assign (f : L -> L) : body unit := fun l => (f l, Ok tt).

  (** The current locals. *)
Definition locals : body L := fun l => (l, Ok l).

Definition pass : body unit := body_ret tt.

  (** [try: m  except (handled): handler]. *)
Definition try_except (m : body unit) (handled : list exn)
      (handler : body unit) : body unit :=
    fun l =>
      match m l with
      | (l', Raise e) =>
          if existsb (exn_eqb e) handled then handler l' else (l', Raise e)
      | finished => finished
      end.

  (** A body run from initial locals yields what it returns or raises. *)
Definition run {A : Type} (m : body A) (initial : L) : res A :=
    (m initial).2.

End Body.

Notation "x ⇐ m ;; k" := (body_bind m (fun x => k))
  (at level 100, m at next level, right associativity).
Notation "m ;;; k" := (body_bind m (fun _ => k))
  (at level 100, right associativity).

(** ** The user representation builder *)

(** The locals of [get_user_grades]. *)
Record Grades : Type := {
  grade : value;
  proforma_grade : value;
  section_breakdown : value
}.

Module UserSerializer.
Section Serializer.

  (** Collaborators from other modules: the organization serializer and
      the helper that turns a username and an optional upload time into
      the profile image metadata. *)
Context {Organization : Type}.
Variable BasicOrganizationSerializer : Organization -> value.
Variable get_profile_image_urls_by_username : string -> option string -> value.

  (** What the instance sees: its context and the tables. *)
Variable db : Database.
Variable context : Context.

  (** [user.profile]: the reverse one-to-one accessor raises when no
      profile row exists. *)
Definition user_profile (user : User Organization) : res Profile :=
    match profile user with
    | Some p => Ok p
    | None => Raise ObjectDoesNotExist
    end.

  (** [Model.objects.get(...)] on a table keyed by the lookup. *)
Definition objects_get {K : Type} `{Countable K} {R : Type}
      (table : gmap K R) (key : K) : res R :=
    match table !! key with
    | Some r => Ok r
    | None => Raise ObjectDoesNotExist
    end.

Definition get_profile_image (user : User Organization) : res value :=
    run
      (try_except
         (p ⇐ eval (user_profile user);;
          assign (fun _ => profile_image_uploaded_at p))
         [ObjectDoesNotExist]
         (assign (fun _ => None));;;
       profile_image_uploaded_at ⇐ locals;;
       body_ret (get_profile_image_urls_by_username (username user)
                   profile_image_uploaded_at))
      None.

Definition get_courses_enrolled (user : User Organization) : value :=
    match courses_enrolled user with
    | Some attached => attached
    | None => VInt (Z.of_nat (length (courseenrollment_set user)))
    end.

Definition get_user_roles (user : User Organization) : list string :=
    let queryset :=
      filter (fun r => CourseAccessRole.user r = pk user)
             (course_access_roles db) in
    let queryset :=
      match course_id context with
      | Some course_id =>
          filter (fun r => CourseAccessRole.course_id r = course_id) queryset
      | None => queryset
      end in
    remove_dups (CourseAccessRole.role <$> queryset).

Definition get_user_grades (user : User Organization) : res value :=
    run
      (match course_id context with
       | Some course_id =>
           try_except
             (gradebook ⇐ eval (objects_get (student_gradebooks db)
                                  (pk user, course_id));;
              assign (fun l =>
                {| grade := VFloat (StudentGradebook.grade gradebook);
                   proforma_grade := proforma_grade l;
                   section_breakdown := section_breakdown l |});;;
              assign (fun l =>
                {| grade := grade l;
                   proforma_grade :=
                     VFloat (StudentGradebook.proforma_grade gradebook);
                   section_breakdown := section_breakdown l |});;;
              grade_summary ⇐
                eval (json.loads (StudentGradebook.grade_summary gradebook));;
              found ⇐ eval (contains "section_breakdown" grade_summary);;
              if (found : bool) then
                item ⇐ eval (getitem grade_summary "section_breakdown");;
                assign (fun l =>
                  {| grade := grade l;
                     proforma_grade := proforma_grade l;
                     section_breakdown := item |})
              else pass)
             [ObjectDoesNotExist; ValueError]
             pass
       | None => pass
       end;;;
       l ⇐ locals;;
       body_ret (VDict [("grade", grade l);
                        ("proforma_grade", proforma_grade l);
                        ("section_breakdown", section_breakdown l)]))
      {| grade := VNull; proforma_grade := VNull; section_breakdown := VNull |}.

  (** A field declared with [source='profile.<attr>'].  The attribute
      lookup of the framework walks the dotted path and yields [None] as
      soon as a step raises [ObjectDoesNotExist]; an attribute that is
      [None] is rendered as null. *)
Definition profile_source (attr : Profile -> option string)
      (user : User Organization) : res value :=
    match user_profile user with
    | Ok p => Ok (optional (attr p))
    | Raise ObjectDoesNotExist => Ok VNull
    | Raise e => Raise e
    end.

  (** The declared fields, in the order of [Meta.fields], each with the
      computation of its output value. *)
Definition declared : list (string * (User Organization -> res value)) :=
    [ ("id", fun user => Ok (VInt (pk user)));
      ("email", fun user => Ok (VStr (email user)));
      ("username", fun user => Ok (VStr (username user)));
      ("first_name", fun user => Ok (VStr (first_name user)));
      ("last_name", fun user => Ok (VStr (last_name user)));
      ("created", fun user => Ok (VStr (date_joined user)));
      ("is_active", fun user => Ok (VBool (is_active user)));
      ("profile_image", get_profile_image);
      ("city", profile_source city);
      ("title", profile_source title);
      ("country", profile_source country);
      ("full_name", profile_source (fun p => Some (name p)));
      ("is_staff", fun user => Ok (VBool (is_staff user)));
      ("last_login", fun user => Ok (optional (last_login user)));
      ("courses_enrolled", fun user => Ok (get_courses_enrolled user));
      ("organizations", fun user =>
         Ok (VList (BasicOrganizationSerializer <$> organizations user)));
      ("roles", fun user => Ok (VList (VStr <$> get_user_roles user)));
      ("grades", get_user_grades) ].

  (** The output value of one declared field. *)
Definition field_value (field_name : string) (user : User Organization)
      : option (res value) :=
    getter ← assoc field_name declared; Some (getter user).

  (** Construction followed by rendering. *)
Definition data (user : User Organization)
      : res (list (string * value)) :=
    fields ← DynamicFieldsModelSerializer.__init__ declared context;
    to_representation fields user.

End Serializer.
End UserSerializer.

(** ** The reduced user representation *)

Module SimpleUserSerializer.
Section Serializer.

Context {Organization : Type}.
Variable context : Context.

Definition declared : list (string * (User Organization -> res value)) :=
    [ ("id", fun user => Ok (VInt (pk user)));
      ("email", fun user => Ok (VStr (email user)));
      ("username", fun user => Ok (VStr (username user)));
      ("first_name", fun user => Ok (VStr (first_name user)));
      ("last_name", fun user => Ok (VStr (last_name user)));
      ("created", fun user => Ok (VStr (date_joined user)));
      ("is_active", fun user => Ok (VBool (is_active user))) ].

Definition data (user : User Organization)
      : res (list (string * value)) :=
    fields ← DynamicFieldsModelSerializer.__init__ declared context;
    to_representation fields user.

End Serializer.
End SimpleUserSerializer.

(** ** Sample data

    Concrete records, contexts and collaborators on which the definitions
    above can be evaluated. *)

(** Modelled from the spec: [get_profile_image_urls_by_username] lives in
    the [utils] module, which is not among the sources.  The specification
    states two things of it: it is keyed by the username and an optional
    upload timestamp, and a user without profile, for whom the timestamp
    is null, has a null [profile_image].  The model fixes the second; the
    metadata of an uploaded image, which the specification does not
    describe, is the parameter [uploaded]. *)
Definition get_profile_image_urls_by_username
    (uploaded : string → string → value) (username : string)
    (profile_image_uploaded_at : option string) : value :=
  match profile_image_uploaded_at with
  | None => VNull
  | Some timestamp => uploaded username timestamp
  end.

(** A sample of image metadata for an uploaded image. *)
Definition image_url (username timestamp : string) : value :=
  VDict [("image_url",
          VStr ("/profile-images/" +:+ username +:+ "?v=" +:+ timestamp))].

(** A JSON text written with apostrophes where JSON has double quotes. *)
Fixpoint json_text (s : string) : string :=
  match s with
  | String c rest =>
      String (if Ascii.eqb c "'" then "034"%char else c) (json_text rest)
  | EmptyString => EmptyString
  end.

(** A context built from the query string, the default selection and the
    course in scope. *)
Definition context_of (query : list (string * string))
    (defaults course : option string) : Context :=
  {| request := Some {| query_params := list_to_map query |};
     default_fields := defaults;
     course_id := course |}.

Definition no_request : Context :=
  {| request := None; default_fields := None; course_id := None |}.

(** A user without profile, enrolled in two courses, with no enrollment
    count attached. *)
Definition alice : User unit :=
  {| pk := 7;
     email := "alice@example.com";
     username := "alice";
     first_name := "Alice";
     last_name := "Liddell";
     date_joined := "2015-03-01T10:00:00Z";
     is_active := true;
     is_staff := false;
     last_login := None;
     profile := None;
     courses_enrolled := None;
     courseenrollment_set :=
       [ {| enrolled_course := "edX/DemoX/2015"; enrollment_active := true |};
         {| enrolled_course := "edX/Algebra/2015";
            enrollment_active := true |} ];
     organizations := [] |}.

Definition gradebook_row (summary : string) : StudentGradebook.row :=
  {| StudentGradebook.grade := "0.85";
     StudentGradebook.proforma_grade := "0.9";
     StudentGradebook.grade_summary := summary |}.

Definition role_row (user : Z) (course role : string) : CourseAccessRole.row :=
  {| CourseAccessRole.user := user;
     CourseAccessRole.org := "edX";
     CourseAccessRole.course_id := course;
     CourseAccessRole.role := role |}.

(** Tables with one gradebook row for alice in the demo course, holding
    the given breakdown text, and a handful of role assignments. *)
Definition tables (summary : string) : Database :=
  {| course_access_roles :=
       [ role_row 7 "edX/DemoX/2015" "instructor";
         role_row 7 "edX/Algebra/2015" "staff";
         role_row 7 "edX/Algebra/2015" "instructor";
         role_row 8 "edX/DemoX/2015" "observer";
         role_row 7 "edX/DemoX/2015" "instructor" ];
     student_gradebooks :=
       {[ (7%Z, "edX/DemoX/2015") := gradebook_row summary ]} |}.

(** A user with a profile whose city is not filled in, with an attached
    enrollment count and no enrollment record loaded. *)
Definition bob : User unit :=
  {| pk := 8;
     email := "bob@example.com";
     username := "bob";
     first_name := "Bob";
     last_name := "Builder";
     date_joined := "2016-06-15T08:30:00Z";
     is_active := true;
     is_staff := true;
     last_login := Some "2016-07-01T12:00:00Z";
     profile :=
       Some {| name := "Bob the Builder";
               city := None;
               title := Some "Engineer";
               country := Some "GB";
               profile_image_uploaded_at := Some "2016-06-16T09:00:00Z" |};
     courses_enrolled := Some (VInt 5);
     courseenrollment_set := [];
     organizations := [tt] |}.

(** The full rendering of a user by the reduced serializer. *)
Definition simple_representation {Organization : Type}
    (user : User Organization) : list (string * value) :=
  [ ("id", VInt (pk user));
    ("email", VStr (email user));
    ("username", VStr (username user));
    ("first_name", VStr (first_name user));
    ("last_name", VStr (last_name user));
    ("created", VStr (date_joined user));
    ("is_active", VBool (is_active user)) ].

(** The tables with the gradebook rows replaced. *)
Definition with_gradebooks (db : Database)
    (rows : gmap (Z * string) StudentGradebook.row) : Database :=
  {| course_access_roles := course_access_roles db;
     student_gradebooks := rows |}.

(** The tables with the role assignments replaced. *)
Definition with_roles (db : Database)
    (rows : list CourseAccessRole.row) : Database :=
  {| course_access_roles := rows;
     student_gradebooks := student_gradebooks db |}.

(** The context with another course scope. *)
Definition with_course (ctx : Context) (course : option string) : Context :=
  {| request := request ctx;
     default_fields := default_fields ctx;
     course_id := course |}.

(** * Properties *)

(** ** The decoder never runs out of fuel *)

Section Decoder.

Import json.

Local Open Scope nat_scope.

(** Arithmetic on lengths, once the lengths of literals are computed. *)
Ltac lengths := simpl in *; lia.

Lemma skip_blanks_length s : String.length (skip_blanks s) ≤ String.length s.
Proof.
  induction s as [|c s IH]; simpl; [done|].
  destruct (is_blank c); simpl; lia.
Qed.

Lemma after_length lit s rest :
  after lit s = Some rest →
  String.length s = String.length lit + String.length rest.
Proof.
  revert s. induction lit as [|a lit IH]; intros [|b s]; simpl; try done.
  - by intros [= <-].
  - by intros [= <-].
  - destruct (Ascii.eqb a b); [|done]. intros Hs. by rewrite (IH s Hs).
Qed.

Lemma digits_length s ds rest :
  digits s = (ds, rest) →
  String.length s = String.length ds + String.length rest.
Proof.
  revert ds rest. induction s as [|c s IH]; intros ds rest; simpl.
  - by intros [= <- <-].
  - destruct (is_digit c); [|by intros [= <- <-]].
    destruct (digits s) as [ds' rest'] eqn:Hd. intros [= <- <-].
    simpl. by rewrite (IH ds' rest').
Qed.

Lemma scan_sign_length s sign rest :
  scan_sign s = (sign, rest) → String.length rest ≤ String.length s.
Proof.
  unfold scan_sign. destruct (after "-" s) as [r|] eqn:Ha.
  - intros [= <- <-]. apply after_length in Ha. lia.
  - by intros [= <- <-].
Qed.

Lemma scan_integer_length s int rest :
  scan_integer s = Some (int, rest) → String.length rest < String.length s.
Proof.
  unfold scan_integer. destruct (after "0" s) as [r|] eqn:Ha.
  - intros [= <- <-]. apply after_length in Ha. simpl in Ha. lia.
  - destruct (digits s) as [[|d ds] r] eqn:Hd; [done|].
    intros [= <- <-]. apply digits_length in Hd. simpl in Hd. lia.
Qed.

Lemma scan_fraction_length s frac rest :
  scan_fraction s = (frac, rest) → String.length rest ≤ String.length s.
Proof.
  unfold scan_fraction. destruct (after "." s) as [r|] eqn:Ha.
  - apply after_length in Ha.
    destruct (digits r) as [[|d ds] r'] eqn:Hd; intros [= <- <-]; [done|].
    apply digits_length in Hd. lia.
  - by intros [= <- <-].
Qed.

Lemma scan_exponent_length s exp rest :
  scan_exponent s = (exp, rest) → String.length rest ≤ String.length s.
Proof.
  unfold scan_exponent. destruct s as [|e s]; [by intros [= <- <-]|].
  destruct (_ || _); [|by intros [= <- <-]].
  destruct (after "-" s) as [r|] eqn:Hm;
    [|destruct (after "+" s) as [r|] eqn:Hp].
  - apply after_length in Hm.
    destruct (digits r) as [[|d ds] r'] eqn:Hd; intros [= <- <-]; [done|].
    apply digits_length in Hd. simpl in *. lia.
  - apply after_length in Hp.
    destruct (digits r) as [[|d ds] r'] eqn:Hd; intros [= <- <-]; [done|].
    apply digits_length in Hd. simpl in *. lia.
  - destruct (digits s) as [[|d ds] r'] eqn:Hd; intros [= <- <-]; [done|].
    apply digits_length in Hd. simpl in *. lia.
Qed.

Lemma scan_number_length s v rest :
  scan_number s = Some (v, rest) → String.length rest < String.length s.
Proof.
  unfold scan_number.
  destruct (scan_sign s) as [sign s1] eqn:H1.
  destruct (scan_integer s1) as [[int s2]|] eqn:H2; [|done].
  destruct (scan_fraction s2) as [frac s3] eqn:H3.
  destruct (scan_exponent s3) as [exp s4] eqn:H4.
  apply scan_sign_length in H1. apply scan_integer_length in H2.
  apply scan_fraction_length in H3. apply scan_exponent_length in H4.
  destruct frac, exp; intros [= <- <-]; lia.
Qed.

(** A literal was recognised by [after], recorded in [H]. *)
Ltac literal H :=
  intros [= <- <-]; apply after_length in H; simpl in H; lia.

Lemma scan_literal_length s v rest :
  scan_literal s = Some (v, rest) → String.length rest < String.length s.
Proof.
  unfold scan_literal.
  destruct (after "null" s) eqn:H1; [literal H1|].
  destruct (after "true" s) eqn:H2; [literal H2|].
  destruct (after "false" s) eqn:H3; [literal H3|].
  destruct (scan_number s) as [[v' r']|] eqn:H4;
    [intros [= <- <-]; by apply scan_number_length in H4|].
  destruct (after "NaN" s) eqn:H5; [literal H5|].
  destruct (after "Infinity" s) eqn:H6; [literal H6|].
  destruct (after "-Infinity" s) eqn:H7; [literal H7|].
  done.
Qed.

Lemma scan_string_bounded n : ∀ s text rest,
  String.length s ≤ n →
  scan_string s = Some (text, rest) → String.length rest < String.length s.
Proof.
  induction n as [|n IH]; intros [|c s] text rest Hn; simpl in Hn;
    try done; try lia.
  simpl. destruct (Ascii.eqb c "034"); [intros [= <- <-]; simpl; lia|].
  destruct (Ascii.eqb c "\").
  - destruct s as [|e s1]; [done|]. destruct (Ascii.eqb e "u").
    + destruct s1 as [|h1 [|h2 [|h3 [|h4 s2]]]]; try done.
      destruct (hex4 h1 h2 h3 h4) as [hi|]; [|done]. simpl.
      assert (∀ text rest, (scan_string s2 ≫= λ '(tail, remain),
                Some (utf8 hi +:+ tail, remain)) = Some (text, rest) →
              String.length rest < String.length s2) as Hsingle.
      { intros text' rest'.
        destruct (scan_string s2) as [[tail remain]|] eqn:Hs; [|done].
        intros [= <- <-]. apply IH in Hs; simpl in *; lia. }
      destruct s2 as [|b [|u [|l1 [|l2 [|l3 [|l4 s3]]]]]];
        try (intros Hs; apply Hsingle in Hs; simpl in *; lia).
      destruct (surrogate_pair hi b u l1 l2 l3 l4);
        [|intros Hs; apply Hsingle in Hs; simpl in *; lia].
      destruct (scan_string s3) as [[tail remain]|] eqn:Hs; [|done].
      intros [= <- <-]. apply IH in Hs; simpl in *; lia.
    + destruct (escape e); [|done]. simpl.
      destruct (scan_string s1) as [[tail remain]|] eqn:Hs; [|done].
      intros [= <- <-]. apply IH in Hs; simpl in *; lia.
  - destruct (code c <? 32)%N; [done|].
    destruct (scan_string s) as [[tail remain]|] eqn:Hs; [|done].
    intros [= <- <-]. apply IH in Hs; simpl in *; lia.
Qed.

Lemma scan_string_length s text rest :
  scan_string s = Some (text, rest) → String.length rest < String.length s.
Proof. by apply (scan_string_bounded (String.length s)). Qed.

#[local] Arguments after : simpl never.
#[local] Arguments skip_blanks : simpl never.
#[local] Arguments scan_string : simpl never.
#[local] Arguments scan_literal : simpl never.

(** Whatever is scanned takes at least one character. *)
Lemma scan_consumes fuel :
  (∀ s v rest, scan_once fuel s = Some (v, rest) →
     String.length rest < String.length s)
  ∧ (∀ s items rest, scan_items fuel s = Some (items, rest) →
       String.length rest < String.length s)
  ∧ (∀ d s d' rest, scan_members fuel d s = Some (d', rest) →
       String.length rest < String.length s).
Proof.
  induction fuel as [|fuel (IHonce & IHitems & IHmembers)]; [done|].
  split; [|split].
  - intros s v rest. simpl.
    destruct (after quote s) as [r|] eqn:Hq.
    { apply after_length in Hq.
      destruct (scan_string r) as [[text remain]|] eqn:Hs; simpl; [|done].
      intros [= <- <-]. apply scan_string_length in Hs. lengths. }
    destruct (after "{" s) as [r|] eqn:Hb.
    { apply after_length in Hb. pose proof (skip_blanks_length r).
      destruct (after "}" (skip_blanks r)) as [r'|] eqn:Hc.
      - intros [= <- <-]. apply after_length in Hc. lengths.
      - destruct (scan_members fuel [] (skip_blanks r))
          as [[d remain]|] eqn:Hm; simpl; [|done].
        intros [= <- <-]. apply IHmembers in Hm. lengths. }
    destruct (after "[" s) as [r|] eqn:Ha.
    { apply after_length in Ha. pose proof (skip_blanks_length r).
      destruct (after "]" (skip_blanks r)) as [r'|] eqn:Hc.
      - intros [= <- <-]. apply after_length in Hc. lengths.
      - destruct (scan_items fuel (skip_blanks r))
          as [[items remain]|] eqn:Hi; simpl; [|done].
        intros [= <- <-]. apply IHitems in Hi. lengths. }
    apply scan_literal_length.
  - intros s items rest. simpl.
    destruct (scan_once fuel s) as [[v r]|] eqn:Ho; simpl; [|done]. simpl.
    apply IHonce in Ho. pose proof (skip_blanks_length r).
    destruct (after "]" (skip_blanks r)) as [r'|] eqn:Hc.
    { intros [= <- <-]. apply after_length in Hc. lengths. }
    destruct (after "," (skip_blanks r)) as [r'|] eqn:Hm; [|done].
    apply after_length in Hm. pose proof (skip_blanks_length r').
    destruct (scan_items fuel (skip_blanks r'))
      as [[vs remain]|] eqn:Hi; simpl; [|done].
    intros [= <- <-]. apply IHitems in Hi. lengths.
  - intros d s d' rest. simpl.
    destruct (after quote s) as [r|] eqn:Hq; [|done]. simpl.
    apply after_length in Hq.
    destruct (scan_string r) as [[key r1]|] eqn:Hs; simpl; [|done]. simpl.
    apply scan_string_length in Hs. pose proof (skip_blanks_length r1).
    destruct (after ":" (skip_blanks r1)) as [r2|] eqn:Hc; [|done]. simpl.
    apply after_length in Hc. pose proof (skip_blanks_length r2).
    destruct (scan_once fuel (skip_blanks r2))
      as [[v r3]|] eqn:Ho; simpl; [|done].
    simpl. apply IHonce in Ho. pose proof (skip_blanks_length r3).
    destruct (after "}" (skip_blanks r3)) as [r4|] eqn:He.
    { intros [= <- <-]. apply after_length in He. lengths. }
    destruct (after "," (skip_blanks r3)) as [r4|] eqn:Hm; [|done].
    apply after_length in Hm. pose proof (skip_blanks_length r4).
    intros Hrec. apply IHmembers in Hrec. lengths.
Qed.

(** Past twice the length of the text (and one or two more), more fuel
    changes nothing. *)
Lemma scan_fuel n : ∀ m,
  (∀ s, 2 * String.length s + 1 ≤ n → 2 * String.length s + 1 ≤ m →
     scan_once n s = scan_once m s)
  ∧ (∀ s, 2 * String.length s + 2 ≤ n → 2 * String.length s + 2 ≤ m →
       scan_items n s = scan_items m s)
  ∧ (∀ d s, 2 * String.length s + 2 ≤ n → 2 * String.length s + 2 ≤ m →
       scan_members n d s = scan_members m d s).
Proof.
  induction n as [|n IH]; intros [|m];
    try (split; [|split]; intros; lia).
  destruct (IH m) as (IHonce & IHitems & IHmembers).
  destruct (scan_consumes m) as (Honce & _ & _).
  split; [|split].
  - intros s Hn Hm. simpl.
    destruct (after quote s) as [r|] eqn:Hq; [done|].
    destruct (after "{" s) as [r|] eqn:Hb.
    { apply after_length in Hb. pose proof (skip_blanks_length r).
      destruct (after "}" (skip_blanks r)); [done|].
      rewrite IHmembers; [done|lengths..]. }
    destruct (after "[" s) as [r|] eqn:Ha; [|done].
    apply after_length in Ha. pose proof (skip_blanks_length r).
    destruct (after "]" (skip_blanks r)); [done|].
    rewrite IHitems; [done|lengths..].
  - intros s Hn Hm. simpl. rewrite IHonce by lia.
    destruct (scan_once m s) as [[v r]|] eqn:Ho; simpl; [|done]. simpl.
    apply Honce in Ho. pose proof (skip_blanks_length r).
    destruct (after "]" (skip_blanks r)); [done|].
    destruct (after "," (skip_blanks r)) as [r'|] eqn:Hc; [|done].
    apply after_length in Hc. pose proof (skip_blanks_length r').
    rewrite IHitems; [done|lengths..].
  - intros d s Hn Hm. simpl.
    destruct (after quote s) as [r|] eqn:Hq; [|done]. simpl.
    apply after_length in Hq.
    destruct (scan_string r) as [[key r1]|] eqn:Hs; simpl; [|done]. simpl.
    apply scan_string_length in Hs. pose proof (skip_blanks_length r1).
    destruct (after ":" (skip_blanks r1)) as [r2|] eqn:Hc; [|done]. simpl.
    apply after_length in Hc. pose proof (skip_blanks_length r2).
    rewrite IHonce by lengths.
    destruct (scan_once m (skip_blanks r2)) as [[v r3]|] eqn:Ho; simpl; [|done].
    simpl. apply Honce in Ho. pose proof (skip_blanks_length r3).
    destruct (after "}" (skip_blanks r3)); [done|].
    destruct (after "," (skip_blanks r3)) as [r4|] eqn:Hm'; [|done].
    apply after_length in Hm'. pose proof (skip_blanks_length r4).
    apply IHmembers; lia.
Qed.

(** The decoder gives the same answer with any larger fuel: a rejection
    is a rejection by the grammar, never an exhausted recursion. *)
Lemma decode_fuel s fuel :
  enough (skip_blanks s) ≤ fuel →
  scan_once fuel (skip_blanks s)
  = scan_once (enough (skip_blanks s)) (skip_blanks s).
Proof.
  intros Hfuel. unfold enough in *.
  apply (scan_fuel fuel (2 * String.length (skip_blanks s) + 2)); lia.
Qed.

End Decoder.

(** ** The dynamic field selector *)

Section FieldSelection.

Context {F : Type}.
Implicit Types (fields declared : list (string * F)) (names : list string).

Import DynamicFieldsModelSerializer.

Lemma filter_agree (P Q : string * F -> Prop)
    `{!∀ e, Decision (P e)} `{!∀ e, Decision (Q e)} fields :
  (∀ e, e ∈ fields → P e ↔ Q e) → filter P fields = filter Q fields.
Proof.
  induction fields as [|e fields IH]; intros Heq; [done|].
  rewrite !filter_cons, IH by (intros; apply Heq; by right).
  destruct (decide (P e)) as [HP|HP], (decide (Q e)) as [HQ|HQ]; try done;
    exfalso; pose proof (Heq e ltac:(left)) as He; tauto.
Qed.

Lemma filter_all (P : string * F -> Prop) `{!∀ e, Decision (P e)} fields :
  (∀ e, e ∈ fields → P e) → filter P fields = fields.
Proof.
  induction fields as [|e fields IH]; intros Hall; [done|].
  rewrite filter_cons, IH by (intros; apply Hall; by right).
  destruct (decide (P e)) as [|Hn]; [done|].
  exfalso. apply Hn, Hall. by left.
Qed.

(** Popping a key that is present removes it and nothing else. *)
Lemma pop_present name fields :
  name ∈ keys fields →
  pop name fields = Ok (filter (fun e => e.1 ≠ name) fields).
Proof. intros Hin. unfold pop. by rewrite bool_decide_eq_true_2. Qed.

(** The loop over distinct present keys never raises and leaves exactly the
    entries whose key was not listed. *)
Lemma pop_each_present names : ∀ fields,
  NoDup names → (∀ n, n ∈ names → n ∈ keys fields) →
  pop_each names fields = Ok (filter (fun e => e.1 ∉ names) fields).
Proof.
  induction names as [|n names IH]; intros fields Hnd Hin; simpl.
  - rewrite filter_all; [done|]. intros e _. apply not_elem_of_nil.
  - apply NoDup_cons in Hnd as [Hn Hnd].
    rewrite pop_present by (apply Hin; left). simpl.
    rewrite IH; [|done|].
    + f_equal. rewrite list_filter_filter. apply filter_agree.
      intros e _. rewrite not_elem_of_cons. tauto.
    + intros m Hm. unfold keys in *.
      destruct (proj1 (list_elem_of_fmap _ _ _) (Hin m ltac:(by right)))
        as (e & -> & He).
      apply list_elem_of_fmap. exists e. split; [done|].
      apply list_elem_of_filter. split; [|done]. by intros <-.
Qed.

(** With a request and a non-empty selection, construction keeps exactly
    the declared entries whose key is one of the pieces of the selection. *)
Lemma init_selected declared ctx req selection :
  request ctx = Some req →
  requested req ctx = Some selection →
  selection ≠ EmptyString →
  __init__ declared ctx
  = Ok (filter (fun e => e.1 ∈ split "," selection) declared).
Proof.
  intros Hreq Hsel Hne. unfold __init__. rewrite Hreq. simpl. rewrite Hsel.
  simpl. destruct (String.eqb_spec selection EmptyString) as [|_]; [done|].
  simpl. rewrite pop_each_present.
  - f_equal. apply filter_agree. intros e He.
    rewrite elem_of_elements, elem_of_difference, !elem_of_list_to_set.
    split.
    + intros Hn. destruct (decide (e.1 ∈ split "," selection)); [done|].
      exfalso. apply Hn. split; [|done]. unfold keys.
      apply list_elem_of_fmap. by exists e.
    + intros Hin [_ Hout]. done.
  - apply NoDup_elements.
  - intros n. rewrite elem_of_elements, elem_of_difference,
      elem_of_list_to_set. tauto.
Qed.

(** Without a request, or with a selection that is missing or empty,
    construction leaves the declared fields as they are. *)
Lemma init_unselected declared ctx :
  (request ctx = None
   ∨ ∃ req, request ctx = Some req ∧ truthy (requested req ctx) = false) →
  __init__ declared ctx = Ok declared.
Proof.
  unfold __init__. intros [->|(req & -> & Hf)]; [done|]. simpl. by rewrite Hf.
Qed.

(** Construction never raises: it returns the declared entries filtered by
    some decidable set of names. *)
Lemma init_total declared ctx :
  ∃ allowed : string → bool,
    __init__ declared ctx = Ok (filter (fun e => allowed e.1) declared).
Proof.
  destruct (request ctx) as [req|] eqn:Hreq.
  - destruct (truthy (requested req ctx)) eqn:Ht.
    + destruct (requested req ctx) as [selection|] eqn:Hsel; [|done].
      exists (fun n => bool_decide (n ∈ split "," selection)).
      rewrite (init_selected _ _ req selection); try done.
      * f_equal. apply filter_agree. intros e _.
        by rewrite Is_true_true, bool_decide_eq_true.
      * intros ->. done.
    + exists (fun _ => true). rewrite init_unselected by eauto.
      by rewrite filter_all.
  - exists (fun _ => true). rewrite init_unselected by eauto.
    by rewrite filter_all.
Qed.

End FieldSelection.

(** A rendering that succeeds has one entry per installed field, under the
    field's key and in the same order. *)
Lemma to_representation_keys {I : Type}
    (fields : list (string * (I -> res value))) (instance : I) output :
  to_representation fields instance = Ok output →
  output.*1 = DynamicFieldsModelSerializer.keys fields.
Proof.
  unfold to_representation, DynamicFieldsModelSerializer.keys.
  revert output. induction fields as [|[k g] fields IH]; intros output.
  - simpl. by intros [= <-].
  - simpl. destruct (g instance) as [v|e]; simpl; [|done].
    destruct (sequence _) as [rest|e]; simpl; [|done].
    intros [= <-]. simpl. f_equal. by apply IH.
Qed.

(** A rendering succeeds as soon as every installed field does. *)
Lemma to_representation_total {I : Type}
    (fields : list (string * (I -> res value))) (instance : I) :
  (∀ e, e ∈ fields → ∃ v, e.2 instance = Ok v) →
  ∃ output, to_representation fields instance = Ok output.
Proof.
  unfold to_representation.
  induction fields as [|[k g] fields IH]; intros Hall; simpl; [by eexists|].
  destruct (Hall (k, g) ltac:(left)) as [v Hv]. simpl in Hv. rewrite Hv.
  destruct IH as [rest Hrest]; [intros; apply Hall; by right|].
  rewrite Hrest. simpl. by eexists.
Qed.

(** ** Splitting a selection *)

Lemma split_cons sep s : ∃ piece pieces, split sep s = piece :: pieces.
Proof.
  destruct s as [|c s]; simpl; [by eexists _, _|].
  destruct (Ascii.eqb c sep); [by eexists _, _|].
  destruct (split sep s); by eexists _, _.
Qed.

(** Joining the pieces with the separator gives the text back: nothing is
    trimmed and nothing is lost. *)
Lemma join_split sep s : join (String sep EmptyString) (split sep s) = s.
Proof.
  induction s as [|c s IH]; [done|]. simpl split.
  destruct (split_cons sep s) as (piece & pieces & Hs).
  rewrite Hs in *. destruct (Ascii.eqb_spec c sep) as [->|_].
  - change (join ?x (EmptyString :: piece :: pieces))
      with (EmptyString +:+ x +:+ join x (piece :: pieces)).
    by rewrite IH.
  - rewrite <- IH. by destruct pieces.
Qed.

(** No piece contains the separator: the text is cut at every occurrence. *)
Lemma split_pieces sep s piece :
  piece ∈ split sep s → substring_of (String sep EmptyString) piece = false.
Proof.
  revert piece. induction s as [|c s IH]; intros piece; simpl.
  - intros ->%list_elem_of_singleton. done.
  - destruct (Ascii.eqb_spec c sep) as [->|Hne].
    + intros [->|Hin]%elem_of_cons; [done|]. by apply IH.
    + destruct (split_cons sep s) as (p & ps & Hs). rewrite Hs in *.
      intros [->|Hin]%elem_of_cons.
      * simpl. destruct (ascii_dec sep c) as [->|_]; [done|].
        simpl. apply IH. by left.
      * apply IH. by right.
Qed.

(** ** Claims about the field selection *)

(** C1: whatever the request and the context hold, construction succeeds
    and the keys of the installed fields, which are the keys of every
    output mapping, are among the declared keys; when no selection is
    supplied at all (no request in the context, or neither a [fields]
    parameter nor a [default_fields] entry) the installed fields are the
    declared ones, so the output keys are exactly the declared keys. *)
Theorem output_keys_within_declared {I : Type}
    (declared : list (string * (I → res value))) (ctx : Context) :
  ∃ fields,
    DynamicFieldsModelSerializer.__init__ declared ctx = Ok fields
    ∧ DynamicFieldsModelSerializer.keys fields
      ⊆ DynamicFieldsModelSerializer.keys declared
    ∧ ((request ctx = None
        ∨ ∃ req, request ctx = Some req
                 ∧ query_params req !! "fields" = None
                 ∧ default_fields ctx = None) →
       fields = declared)
    ∧ ∀ instance output,
        to_representation fields instance = Ok output →
        output.*1 ⊆ DynamicFieldsModelSerializer.keys declared
        ∧ output.*1 = DynamicFieldsModelSerializer.keys fields.
Proof.
  destruct (init_total declared ctx) as [allowed Hinit].
  eexists. split; [exact Hinit|].
  assert (DynamicFieldsModelSerializer.keys
            (filter (λ e : string * (I → res value), allowed e.1) declared)
          ⊆ DynamicFieldsModelSerializer.keys declared) as Hsub.
  { unfold DynamicFieldsModelSerializer.keys. intros n.
    rewrite !list_elem_of_fmap. intros (e & -> & He).
    apply list_elem_of_filter in He as [_ He]. by exists e. }
  split; [exact Hsub|]. split.
  - intros Hno. rewrite init_unselected in Hinit.
    + by injection Hinit.
    + destruct Hno as [Hno|(req & Hreq & Hf & Hd)]; [by left|].
      right. exists req. split; [done|].
      unfold DynamicFieldsModelSerializer.requested, get.
      by rewrite Hd, Hf.
  - intros instance output Hout.
    apply to_representation_keys in Hout. by rewrite Hout.
Qed.

(** The reduced serializer, built without a request, installs its seven
    declared fields. *)
Lemma output_keys_within_declared_witness :
  DynamicFieldsModelSerializer.__init__
    (SimpleUserSerializer.declared (Organization := unit)) no_request
  = Ok SimpleUserSerializer.declared.
Proof.
  destruct (output_keys_within_declared
              (SimpleUserSerializer.declared (Organization := unit))
              no_request) as (fields & Hinit & _ & Hall & _).
  rewrite Hinit. f_equal. apply Hall. left. reflexivity.
Defined.

(** C8: when a selection is supplied, construction succeeds; the installed
    keys are the declared keys that the selection names, so a requested
    name that is not declared is absent from the fields and from every
    output mapping, and a declared field that is named stays installed
    with what it carries. *)
Theorem unknown_names_ignored {I : Type}
    (declared : list (string * (I → res value))) (ctx : Context)
    (req : Request) (selection : string) :
  request ctx = Some req →
  DynamicFieldsModelSerializer.requested req ctx = Some selection →
  selection ≠ EmptyString →
  ∃ fields,
    DynamicFieldsModelSerializer.__init__ declared ctx = Ok fields
    ∧ (∀ n, n ∈ DynamicFieldsModelSerializer.keys fields
            ↔ n ∈ DynamicFieldsModelSerializer.keys declared
              ∧ n ∈ split "," selection)
    ∧ (∀ n, n ∈ split "," selection →
            n ∉ DynamicFieldsModelSerializer.keys declared →
            (n ∉ DynamicFieldsModelSerializer.keys fields)
            ∧ ∀ instance output,
                to_representation fields instance = Ok output →
                n ∉ output.*1)
    ∧ (∀ e, e ∈ declared → e.1 ∈ split "," selection → e ∈ fields).
Proof.
  intros Hreq Hsel Hne. eexists.
  split; [by apply (init_selected declared ctx req selection)|].
  assert (∀ n, n ∈ DynamicFieldsModelSerializer.keys
                     (filter (λ e : string * (I → res value),
                                e.1 ∈ split "," selection) declared)
               ↔ n ∈ DynamicFieldsModelSerializer.keys declared
                 ∧ n ∈ split "," selection) as Hkeys.
  { intros n. unfold DynamicFieldsModelSerializer.keys.
    rewrite !list_elem_of_fmap. split.
    - intros (e & -> & He). apply list_elem_of_filter in He as [Hs He].
      split; [by exists e|done].
    - intros [(e & -> & He) Hs]. exists e. split; [done|].
      by apply list_elem_of_filter. }
  split; [exact Hkeys|]. split.
  - intros n Hn Hout.
    assert (n ∉ DynamicFieldsModelSerializer.keys
                  (filter (λ e : string * (I → res value),
                             e.1 ∈ split "," selection) declared)) as Habs.
    { rewrite Hkeys. tauto. }
    split; [exact Habs|]. intros instance output Hrender.
    apply to_representation_keys in Hrender. by rewrite Hrender.
  - intros e He Hs. by apply list_elem_of_filter.
Qed.

(** Asking alice's reduced representation for [id], [email] and the
    undeclared [bogus] installs [id] and [email] only. *)
Lemma unknown_names_ignored_witness :
  ∃ fields,
    DynamicFieldsModelSerializer.__init__
      (SimpleUserSerializer.declared (Organization := unit))
      (context_of [("fields", "id,email,bogus")] None None) = Ok fields
    ∧ ("bogus" ∉ DynamicFieldsModelSerializer.keys fields)
    ∧ "email" ∈ DynamicFieldsModelSerializer.keys fields.
Proof.
  destruct (unknown_names_ignored
              (SimpleUserSerializer.declared (Organization := unit))
              (context_of [("fields", "id,email,bogus")] None None)
              {| query_params := list_to_map [("fields", "id,email,bogus")] |}
              "id,email,bogus")
    as (fields & Hinit & Hkeys & Hunknown & _).
  - reflexivity.
  - vm_compute. reflexivity.
  - discriminate.
  - exists fields. split; [exact Hinit|]. split.
    + apply Hunknown; by apply (bool_decide_unpack _).
    + apply Hkeys. split; by apply (bool_decide_unpack _).
Defined.

(** C10: the selection is cut at every comma and nothing is trimmed, and
    construction keeps exactly the declared fields whose name is one of
    the pieces; when the [fields] parameter is missing or empty and the
    context has a [default_fields] entry, the selection is that entry, a
    comma, and the [additional_fields] parameter (empty when missing), and
    the fields kept are those named by its pieces; so when both are empty
    the selection is a lone comma, its pieces are two empty names, and a
    serializer that declares no field with the empty name drops every
    field and renders the empty mapping. *)
Theorem empty_defaults_drop_every_field {I : Type}
    (declared : list (string * (I → res value))) (ctx : Context)
    (req : Request) :
  request ctx = Some req →
  (∀ s, join "," (split "," s) = s
        ∧ ∀ piece, piece ∈ split "," s → substring_of "," piece = false)
  ∧ (∀ selection,
       DynamicFieldsModelSerializer.requested req ctx = Some selection →
       selection ≠ EmptyString →
       DynamicFieldsModelSerializer.__init__ declared ctx
       = Ok (filter (fun e => e.1 ∈ split "," selection) declared))
  ∧ (truthy (query_params req !! "fields") = false →
     ∀ dflt, default_fields ctx = Some dflt →
       DynamicFieldsModelSerializer.requested req ctx
       = Some (dflt +:+ ","
               +:+ default EmptyString
                     (query_params req !! "additional_fields"))
       ∧ DynamicFieldsModelSerializer.__init__ declared ctx
         = Ok (filter
                 (fun e =>
                    e.1 ∈ split ","
                            (dflt +:+ ","
                             +:+ default EmptyString
                                   (query_params req
                                      !! "additional_fields")))
                 declared))
  ∧ (truthy (query_params req !! "fields") = false →
     default_fields ctx = Some EmptyString →
     default EmptyString (query_params req !! "additional_fields")
     = EmptyString →
     EmptyString ∉ DynamicFieldsModelSerializer.keys declared →
     DynamicFieldsModelSerializer.requested req ctx = Some ","
     ∧ split "," "," = [EmptyString; EmptyString]
     ∧ DynamicFieldsModelSerializer.__init__ declared ctx = Ok []
     ∧ ∀ instance : I,
         (fields ← DynamicFieldsModelSerializer.__init__ declared ctx;
          to_representation fields instance) = Ok []).
Proof.
  intros Hreq.
  assert (truthy (query_params req !! "fields") = false →
          ∀ dflt, default_fields ctx = Some dflt →
            DynamicFieldsModelSerializer.requested req ctx
            = Some (dflt +:+ ","
                    +:+ default EmptyString
                          (query_params req !! "additional_fields")))
    as Hjoin.
  { intros Hfields dflt Hd.
    unfold DynamicFieldsModelSerializer.requested, get.
    rewrite Hd. replace (match query_params req !! "fields" with
                         | Some v => Some v
                         | None => None
                         end) with (query_params req !! "fields")
      by (by destruct (query_params req !! "fields")).
    rewrite Hfields. simpl.
    by destruct (query_params req !! "additional_fields"). }
  split; [|split; [|split]].
  - intros s. split; [apply join_split|]. intros piece. apply split_pieces.
  - intros selection Hsel Hne.
    by apply (init_selected declared ctx req selection).
  - intros Hfields dflt Hd. split; [by apply Hjoin|].
    apply (init_selected declared ctx req); [done|by apply Hjoin|].
    by destruct dflt.
  - intros Hfields Hd Hadd Hnone.
    pose proof (Hjoin Hfields _ Hd) as Hsel. rewrite Hadd in Hsel.
    change (EmptyString +:+ "," +:+ EmptyString) with "," in Hsel.
    assert (DynamicFieldsModelSerializer.__init__ declared ctx = Ok [])
      as Hinit.
    { rewrite (init_selected declared ctx req ","); try done.
      f_equal. clear -Hnone.
      unfold DynamicFieldsModelSerializer.keys in Hnone.
      induction declared as [|e l IH]; [done|].
      rewrite fmap_cons, not_elem_of_cons in Hnone.
      destruct Hnone as [He Hl].
      rewrite filter_cons, IH by done.
      destruct (decide _) as [Hin|]; [|done].
      simpl in Hin. rewrite !elem_of_cons, elem_of_nil in Hin.
      exfalso. destruct Hin as [Hin|[Hin|[]]]; by apply He. }
    split; [exact Hsel|]. split; [reflexivity|]. split; [exact Hinit|].
    intros instance. by rewrite Hinit.
Qed.

(** With the default [id] and the additional [ email,is_active], the
    reduced serializer keeps [id] and [is_active] and drops [email], whose
    requested name starts with a blank; with both empty, the full
    serializer renders alice as the empty mapping. *)
Lemma empty_defaults_drop_every_field_witness :
  (∃ fields,
     DynamicFieldsModelSerializer.__init__
       (SimpleUserSerializer.declared (Organization := unit))
       (context_of [("additional_fields", " email,is_active")] (Some "id")
          None) = Ok fields
     ∧ DynamicFieldsModelSerializer.keys fields = ["id"; "is_active"])
  ∧ UserSerializer.data (fun _ : unit => VNull)
      (get_profile_image_urls_by_username image_url) (tables EmptyString)
      (context_of [] (Some EmptyString) None) alice
    = Ok [].
Proof.
  split.
  - destruct (empty_defaults_drop_every_field
                (SimpleUserSerializer.declared (Organization := unit))
                (context_of [("additional_fields", " email,is_active")]
                   (Some "id") None)
                {| query_params :=
                     list_to_map [("additional_fields",
                                   " email,is_active")] |} eq_refl)
      as (_ & _ & Hdefaults & _).
    destruct (Hdefaults eq_refl "id" eq_refl) as [_ Hinit].
    eexists. split; [exact Hinit|]. vm_compute. reflexivity.
  - destruct (empty_defaults_drop_every_field
                (UserSerializer.declared (fun _ : unit => VNull)
                   (get_profile_image_urls_by_username image_url)
                   (tables EmptyString)
                   (context_of [] (Some EmptyString) None))
                (context_of [] (Some EmptyString) None)
                {| query_params := list_to_map [] |} eq_refl)
      as (_ & _ & _ & Hdrop).
    destruct Hdrop as (_ & _ & _ & Hrender);
      [reflexivity|reflexivity|reflexivity|by apply (bool_decide_unpack _)|].
    apply Hrender.
Defined.

(** ** The user representation builder *)

Section UserFields.

Context {Organization : Type}.
Variable organization_serializer : Organization → value.
Variable image_urls : string → option string → value.
Variable db : Database.
Variable ctx : Context.
Implicit Types (user : User Organization).

Abbreviation get_user_grades :=
  (UserSerializer.get_user_grades (Organization := Organization) db ctx).
Abbreviation get_user_roles :=
  (UserSerializer.get_user_roles (Organization := Organization) db ctx).
Abbreviation field_value :=
  (UserSerializer.field_value organization_serializer image_urls db ctx).

(** Without a course in scope the gradebook is not consulted. *)
Lemma grades_without_course user :
  course_id ctx = None →
  get_user_grades user
  = Ok (VDict [("grade", VNull); ("proforma_grade", VNull);
               ("section_breakdown", VNull)]).
Proof. intros Hc. unfold UserSerializer.get_user_grades. by rewrite Hc. Qed.

(** With a course in scope and no gradebook row, the lookup failure is
    caught before anything is assigned. *)
Lemma grades_without_row user course :
  course_id ctx = Some course →
  student_gradebooks db !! (pk user, course) = None →
  get_user_grades user
  = Ok (VDict [("grade", VNull); ("proforma_grade", VNull);
               ("section_breakdown", VNull)]).
Proof.
  intros Hc Hrow. unfold UserSerializer.get_user_grades.
  rewrite Hc. unfold run, try_except, body_bind, eval,
    UserSerializer.objects_get. by rewrite Hrow.
Qed.

(** With a row, the result is decided by the decoding of its breakdown
    text and by the membership test on the decoded value. *)
Lemma grades_with_row user course row :
  course_id ctx = Some course →
  student_gradebooks db !! (pk user, course) = Some row →
  get_user_grades user
  = let populated item :=
      Ok (VDict [("grade", VFloat (StudentGradebook.grade row));
                 ("proforma_grade",
                  VFloat (StudentGradebook.proforma_grade row));
                 ("section_breakdown", item)]) in
    match json.loads (StudentGradebook.grade_summary row) with
    | Raise ValueError | Raise ObjectDoesNotExist => populated VNull
    | Raise e => Raise e
    | Ok grade_summary =>
        match contains "section_breakdown" grade_summary with
        | Raise ValueError | Raise ObjectDoesNotExist => populated VNull
        | Raise e => Raise e
        | Ok false => populated VNull
        | Ok true =>
            match getitem grade_summary "section_breakdown" with
            | Raise ValueError | Raise ObjectDoesNotExist => populated VNull
            | Raise e => Raise e
            | Ok item => populated item
            end
        end
    end.
Proof.
  intros Hc Hrow. unfold UserSerializer.get_user_grades.
  rewrite Hc. unfold run, try_except, body_bind, eval, assign, pass, locals,
    body_ret, UserSerializer.objects_get. rewrite Hrow. simpl.
  destruct (json.loads _) as [summary|[]]; simpl; try done.
  destruct (contains _ summary) as [[]|[]]; simpl; try done.
  destruct (getitem summary _) as [item|[]]; simpl; done.
Qed.

(** C4: with a course in scope and no gradebook row for the user and
    that course, [get_user_grades] returns the mapping whose three values
    are null, and does not raise. *)
Theorem grades_null_without_gradebook user course :
  course_id ctx = Some course →
  student_gradebooks db !! (pk user, course) = None →
  get_user_grades user
  = Ok (VDict [("grade", VNull); ("proforma_grade", VNull);
               ("section_breakdown", VNull)]).
Proof. apply grades_without_row. Qed.

(** With a gradebook row whose breakdown text decodes to a value on which
    the membership test is defined and fails (a JSON object without the
    key, an array without that text, a text in which it does not occur),
    the grade and the proforma grade are those of the row and the section
    breakdown is null. *)
Lemma grades_without_member user course row decoded :
  course_id ctx = Some course →
  student_gradebooks db !! (pk user, course) = Some row →
  json.loads (StudentGradebook.grade_summary row) = Ok decoded →
  contains "section_breakdown" decoded = Ok false →
  get_user_grades user
  = Ok (VDict [("grade", VFloat (StudentGradebook.grade row));
               ("proforma_grade",
                VFloat (StudentGradebook.proforma_grade row));
               ("section_breakdown", VNull)]).
Proof.
  intros Hc Hrow Hloads Hin.
  by rewrite (grades_with_row user course row Hc Hrow), Hloads, Hin.
Qed.

(** The case of a JSON object that has no [section_breakdown] key. *)
Lemma grades_without_section_breakdown user course row entries :
  course_id ctx = Some course →
  student_gradebooks db !! (pk user, course) = Some row →
  json.loads (StudentGradebook.grade_summary row) = Ok (VDict entries) →
  "section_breakdown" ∉ entries.*1 →
  get_user_grades user
  = Ok (VDict [("grade", VFloat (StudentGradebook.grade row));
               ("proforma_grade",
                VFloat (StudentGradebook.proforma_grade row));
               ("section_breakdown", VNull)]).
Proof.
  intros Hc Hrow Hloads Hkey.
  rewrite (grades_with_row user course row Hc Hrow), Hloads. simpl.
  by rewrite bool_decide_eq_false_2.
Qed.

(** C3, as the code has it: with a gradebook row whose breakdown text
    fails to decode, the section breakdown is null, the grade and the
    proforma grade are those of the row, and nothing is raised. *)
Theorem grades_with_malformed_breakdown user course row :
  course_id ctx = Some course →
  student_gradebooks db !! (pk user, course) = Some row →
  json.loads (StudentGradebook.grade_summary row) = Raise ValueError →
  get_user_grades user
  = Ok (VDict [("grade", VFloat (StudentGradebook.grade row));
               ("proforma_grade",
                VFloat (StudentGradebook.proforma_grade row));
               ("section_breakdown", VNull)]).
Proof.
  intros Hc Hrow Hloads.
  by rewrite (grades_with_row user course row Hc Hrow), Hloads.
Qed.

(** Whenever [get_user_grades] returns, it returns a mapping with exactly
    the keys [grade], [proforma_grade] and [section_breakdown]. *)
Lemma grades_keys user result :
  get_user_grades user = Ok result →
  ∃ g p s, result = VDict [("grade", g); ("proforma_grade", p);
                           ("section_breakdown", s)].
Proof.
  destruct (course_id ctx) as [course|] eqn:Hc.
  - destruct (student_gradebooks db !! (pk user, course)) as [row|] eqn:Hrow.
    + rewrite (grades_with_row user course row Hc Hrow). simpl.
      destruct (json.loads _) as [summary|[]]; try done;
        try (intros [= <-]; by eexists _, _, _).
      destruct (contains _ summary) as [[]|[]]; try done;
        try (intros [= <-]; by eexists _, _, _).
      destruct (getitem summary _) as [item|[]]; try done;
        intros [= <-]; by eexists _, _, _.
    + rewrite (grades_without_row user course Hc Hrow).
      intros [= <-]. by eexists _, _, _.
  - rewrite (grades_without_course user Hc).
    intros [= <-]. by eexists _, _, _.
Qed.

(** A breakdown text that decodes to something that is neither a mapping,
    a list nor a string makes the membership test raise, and the handler
    does not catch it. *)
Lemma grades_of_scalar_breakdown user course row grade_summary :
  course_id ctx = Some course →
  student_gradebooks db !! (pk user, course) = Some row →
  json.loads (StudentGradebook.grade_summary row) = Ok grade_summary →
  contains "section_breakdown" grade_summary = Raise TypeError →
  get_user_grades user = Raise TypeError.
Proof.
  intros Hc Hrow Hloads Hin.
  by rewrite (grades_with_row user course row Hc Hrow), Hloads, Hin.
Qed.

(** C6: the roles of a user are listed without repetition; a role is
    listed exactly when some assignment of the user carries it, among all
    assignments when no course is in scope and among the assignments of
    that course when one is. *)
Theorem roles_distinct_and_scoped user :
  NoDup (get_user_roles user)
  ∧ (course_id ctx = None →
     ∀ r, r ∈ get_user_roles user
          ↔ ∃ a, a ∈ course_access_roles db
                 ∧ CourseAccessRole.user a = pk user
                 ∧ CourseAccessRole.role a = r)
  ∧ (∀ course, course_id ctx = Some course →
     ∀ r, r ∈ get_user_roles user
          ↔ ∃ a, a ∈ course_access_roles db
                 ∧ CourseAccessRole.user a = pk user
                 ∧ CourseAccessRole.course_id a = course
                 ∧ CourseAccessRole.role a = r).
Proof.
  unfold UserSerializer.get_user_roles.
  split; [apply NoDup_remove_dups|]. split.
  - intros -> r. rewrite elem_of_remove_dups, list_elem_of_fmap.
    split.
    + intros (a & -> & Ha). apply list_elem_of_filter in Ha as [Hu Ha].
      by exists a.
    + intros (a & Ha & Hu & <-). exists a. split; [done|].
      by apply list_elem_of_filter.
  - intros course -> r. rewrite elem_of_remove_dups, list_elem_of_fmap.
    split.
    + intros (a & -> & Ha). apply list_elem_of_filter in Ha as [Hcourse Ha].
      apply list_elem_of_filter in Ha as [Hu Ha]. by exists a.
    + intros (a & Ha & Hu & Hcourse & <-). exists a. split; [done|].
      apply list_elem_of_filter. split; [done|].
      by apply list_elem_of_filter.
Qed.

(** C7: an attached enrollment count is returned as it is; without one the
    result is the number of enrollment records of the user, so two
    enrollments and no attached count give two. *)
Theorem courses_enrolled_attached_or_counted user :
  (∀ attached, courses_enrolled user = Some attached →
     UserSerializer.get_courses_enrolled user = attached)
  ∧ (courses_enrolled user = None →
     UserSerializer.get_courses_enrolled user
     = VInt (Z.of_nat (length (courseenrollment_set user))))
  ∧ (courses_enrolled user = None →
     length (courseenrollment_set user) = 2 →
     UserSerializer.get_courses_enrolled user = VInt 2).
Proof.
  unfold UserSerializer.get_courses_enrolled. split; [|split].
  - by intros attached ->.
  - by intros ->.
  - by intros -> ->.
Qed.

(** For a user without profile the fields [city], [title], [country] and
    [full_name] are null and [profile_image] is what the image helper
    returns for the username and no upload time; none of the five
    raises. *)
Lemma profile_fields_without_profile user :
  profile user = None →
  field_value "city" user = Some (Ok VNull)
  ∧ field_value "title" user = Some (Ok VNull)
  ∧ field_value "country" user = Some (Ok VNull)
  ∧ field_value "full_name" user = Some (Ok VNull)
  ∧ field_value "profile_image" user
    = Some (Ok (image_urls (username user) None)).
Proof.
  intros Hp. unfold UserSerializer.field_value. simpl.
  unfold UserSerializer.profile_source, UserSerializer.get_profile_image,
    UserSerializer.user_profile. rewrite Hp. done.
Qed.

End UserFields.

(** C2: for a user without profile, the fields [city], [title], [country],
    [full_name] and [profile_image] of the user serializer are null and
    computing them raises nothing, the image helper being the one
    modelled from the specification. *)
Theorem profile_fields_null_without_profile {Organization : Type}
    (organization_serializer : Organization → value)
    (uploaded : string → string → value)
    (db : Database) (ctx : Context) (user : User Organization) :
  profile user = None →
  UserSerializer.field_value organization_serializer
    (get_profile_image_urls_by_username uploaded) db ctx "city" user
  = Some (Ok VNull)
  ∧ UserSerializer.field_value organization_serializer
      (get_profile_image_urls_by_username uploaded) db ctx "title" user
    = Some (Ok VNull)
  ∧ UserSerializer.field_value organization_serializer
      (get_profile_image_urls_by_username uploaded) db ctx "country" user
    = Some (Ok VNull)
  ∧ UserSerializer.field_value organization_serializer
      (get_profile_image_urls_by_username uploaded) db ctx "full_name" user
    = Some (Ok VNull)
  ∧ UserSerializer.field_value organization_serializer
      (get_profile_image_urls_by_username uploaded) db ctx "profile_image"
      user
    = Some (Ok VNull).
Proof.
  intros Hp.
  destruct (profile_fields_without_profile organization_serializer
              (get_profile_image_urls_by_username uploaded) db ctx user Hp)
    as (Hcity & Htitle & Hcountry & Hname & Himage).
  by rewrite Hcity, Htitle, Hcountry, Hname, Himage.
Qed.

(** ** The claims on sample data *)

(** Alice has no profile: the five fields are null. *)
Lemma profile_fields_null_without_profile_witness :
  UserSerializer.field_value (fun _ : unit => VNull)
    (get_profile_image_urls_by_username image_url) (tables "{}") no_request
    "city" alice
  = Some (Ok VNull)
  ∧ UserSerializer.field_value (fun _ : unit => VNull)
      (get_profile_image_urls_by_username image_url) (tables "{}")
      no_request "title" alice
    = Some (Ok VNull)
  ∧ UserSerializer.field_value (fun _ : unit => VNull)
      (get_profile_image_urls_by_username image_url) (tables "{}")
      no_request "country" alice
    = Some (Ok VNull)
  ∧ UserSerializer.field_value (fun _ : unit => VNull)
      (get_profile_image_urls_by_username image_url) (tables "{}")
      no_request "full_name" alice
    = Some (Ok VNull)
  ∧ UserSerializer.field_value (fun _ : unit => VNull)
      (get_profile_image_urls_by_username image_url) (tables "{}")
      no_request "profile_image" alice
    = Some (Ok VNull).
Proof.
  apply (profile_fields_null_without_profile (fun _ : unit => VNull)
           image_url (tables "{}") no_request alice).
  reflexivity.
Defined.

(** Alice has no gradebook row in the algebra course. *)
Lemma grades_null_without_gradebook_witness :
  UserSerializer.get_user_grades (tables "{}")
    (context_of [] None (Some "edX/Algebra/2015")) alice
  = Ok (VDict [("grade", VNull); ("proforma_grade", VNull);
               ("section_breakdown", VNull)]).
Proof.
  apply (grades_null_without_gradebook (tables "{}")
           (context_of [] None (Some "edX/Algebra/2015")) alice
           "edX/Algebra/2015"); reflexivity.
Defined.

(** Her row in the demo course, with a breakdown object that has no
    [section_breakdown] member. *)
Lemma grades_without_section_breakdown_sample :
  UserSerializer.get_user_grades
    (tables (json_text "{'percent': 0.85, 'grade': 'Pass'}"))
    (context_of [] None (Some "edX/DemoX/2015")) alice
  = Ok (VDict [("grade", VFloat "0.85"); ("proforma_grade", VFloat "0.9");
               ("section_breakdown", VNull)]).
Proof.
  apply (grades_without_section_breakdown
           (tables (json_text "{'percent': 0.85, 'grade': 'Pass'}"))
           (context_of [] None (Some "edX/DemoX/2015")) alice
           "edX/DemoX/2015"
           (gradebook_row (json_text "{'percent': 0.85, 'grade': 'Pass'}"))
           [("percent", VFloat "0.85"); ("grade", VStr "Pass")]).
  - reflexivity.
  - reflexivity.
  - vm_compute. reflexivity.
  - by apply (bool_decide_unpack _).
Defined.

(** The same row with a breakdown text that is not JSON. *)
Lemma grades_with_malformed_breakdown_witness :
  UserSerializer.get_user_grades (tables "{oops")
    (context_of [] None (Some "edX/DemoX/2015")) alice
  = Ok (VDict [("grade", VFloat "0.85"); ("proforma_grade", VFloat "0.9");
               ("section_breakdown", VNull)]).
Proof.
  apply (grades_with_malformed_breakdown (tables "{oops")
           (context_of [] None (Some "edX/DemoX/2015")) alice
           "edX/DemoX/2015" (gradebook_row "{oops")).
  - reflexivity.
  - reflexivity.
  - vm_compute. reflexivity.
Defined.

(** C3 as stated fails: alice has a gradebook row in the demo course whose
    breakdown text does not decode, and her grade and proforma grade are
    reported all the same. *)
Lemma grades_with_malformed_breakdown_not_all_null :
  student_gradebooks (tables "{oops") !! (pk alice, "edX/DemoX/2015")
  = Some (gradebook_row "{oops")
  ∧ json.loads (StudentGradebook.grade_summary (gradebook_row "{oops"))
    = Raise ValueError
  ∧ UserSerializer.get_user_grades (tables "{oops")
      (context_of [] None (Some "edX/DemoX/2015")) alice
    = Ok (VDict [("grade", VFloat "0.85"); ("proforma_grade", VFloat "0.9");
                 ("section_breakdown", VNull)])
  ∧ UserSerializer.get_user_grades (tables "{oops")
      (context_of [] None (Some "edX/DemoX/2015")) alice
    ≠ Ok (VDict [("grade", VNull); ("proforma_grade", VNull);
                 ("section_breakdown", VNull)]).
Proof.
  split; [reflexivity|]. split; [vm_compute; reflexivity|].
  split; [vm_compute; reflexivity|]. vm_compute. discriminate.
Qed.

(** C5 as stated fails: the breakdown text [5] decodes, to a number, which
    has no [section_breakdown] key; the membership test on it raises, so
    neither a null section breakdown nor the grades of the row are
    returned. *)
Lemma grades_raise_on_number_breakdown :
  student_gradebooks (tables "5") !! (pk alice, "edX/DemoX/2015")
  = Some (gradebook_row "5")
  ∧ json.loads (StudentGradebook.grade_summary (gradebook_row "5"))
    = Ok (VInt 5)
  ∧ UserSerializer.get_user_grades (tables "5")
      (context_of [] None (Some "edX/DemoX/2015")) alice
    = Raise TypeError.
Proof. split; [reflexivity|]. split; vm_compute; reflexivity. Qed.

(** C9 as stated fails: a breakdown text that is the JSON literal [null]
    decodes, the membership test on the decoded value raises, and no
    mapping is returned. *)
Lemma grades_raise_on_null_breakdown :
  json.loads "null" = Ok VNull
  ∧ UserSerializer.get_user_grades (tables "null")
      (context_of [] None (Some "edX/DemoX/2015")) alice
    = Raise TypeError.
Proof. split; vm_compute; reflexivity. Qed.

(** Alice's roles over all courses, and [staff] held in the algebra course
    only. *)
Lemma roles_distinct_and_scoped_witness :
  UserSerializer.get_user_roles (tables "{}") (context_of [] None None) alice
  = ["staff"; "instructor"]
  ∧ "staff" ∈ UserSerializer.get_user_roles (tables "{}")
                (context_of [] None (Some "edX/Algebra/2015")) alice
  ∧ ("staff" ∉ UserSerializer.get_user_roles (tables "{}")
                 (context_of [] None (Some "edX/DemoX/2015")) alice).
Proof.
  split; [vm_compute; reflexivity|].
  destruct (roles_distinct_and_scoped (tables "{}")
              (context_of [] None (Some "edX/Algebra/2015")) alice)
    as (_ & _ & Hscoped).
  destruct (roles_distinct_and_scoped (tables "{}")
              (context_of [] None (Some "edX/DemoX/2015")) alice)
    as (_ & _ & Hdemo).
  split.
  - apply (Hscoped "edX/Algebra/2015" eq_refl).
    exists (role_row 7 "edX/Algebra/2015" "staff").
    split; [simpl; right; left|done].
  - intros Hin. apply (Hdemo "edX/DemoX/2015" eq_refl) in Hin.
    destruct Hin as (a & Ha & _ & Hcourse & Hrole).
    simpl in Ha. rewrite !elem_of_cons, elem_of_nil in Ha.
    destruct Ha as [->|[->|[->|[->|[->|[]]]]]]; discriminate.
Defined.

(** Alice, enrolled twice and with no count attached. *)
Lemma courses_enrolled_attached_or_counted_witness :
  UserSerializer.get_courses_enrolled alice = VInt 2.
Proof.
  destruct (courses_enrolled_attached_or_counted alice) as (_ & _ & Hcount).
  apply Hcount; reflexivity.
Defined.

(** ** The decoder on sample texts *)

Example loads_object :
  json.loads
    (json_text "{'a': 1, 'section_breakdown': [{'x': 0.5}], 'a': null}")
  = Ok (VDict [("a", VNull);
               ("section_breakdown", VList [VDict [("x", VFloat "0.5")]])]).
Proof. vm_compute. reflexivity. Qed.

Example loads_scalars :
  map json.loads ["null"; " 5 "; "-12"; "1e3"; "[]"; "{}"; "true"]
  = [Ok VNull; Ok (VInt 5); Ok (VInt (-12)); Ok (VFloat "1e3");
     Ok (VList []); Ok (VDict []); Ok (VBool true)].
Proof. vm_compute. reflexivity. Qed.

Example loads_malformed :
  map json.loads
    [EmptyString; "{"; "{oops"; "[1,]"; "01"; "1."; "'a'"; "nul"; "[1] x";
     json_text "{'a' 1}"; json_text "{'a':1,}"]
  = repeat (Raise ValueError) 11.
Proof. vm_compute. reflexivity. Qed.

Example split_keeps_blanks :
  split "," "id, email,,bogus" = ["id"; " email"; EmptyString; "bogus"].
Proof. reflexivity. Qed.

(** * Further properties *)

(** ** More on the field selection *)

Section Selection.

Context {F : Type}.
Implicit Types (declared fields : list (string * F)).

Import DynamicFieldsModelSerializer.

(** Cutting a text that holds the separator in the middle gives the pieces
    of what precedes it followed by the pieces of what follows it. *)
Lemma split_app sep a b :
  split sep (a +:+ String sep b) = (split sep a ++ split sep b)%list.
Proof.
  induction a as [|c a IH]; simpl.
  - by rewrite Ascii.eqb_refl.
  - rewrite IH. destruct (Ascii.eqb c sep); [done|].
    by destruct (split_cons sep a) as (p & ps & ->).
Qed.

Lemma requested_fields_parameter req ctx selection :
  query_params req !! "fields" = Some selection →
  selection ≠ EmptyString →
  requested req ctx = Some selection.
Proof.
  intros Hf Hne. unfold requested, get. rewrite Hf.
  destruct (default_fields ctx); [|done]. simpl.
  by destruct (String.eqb_spec selection EmptyString).
Qed.

Lemma requested_defaults req ctx dflt :
  truthy (query_params req !! "fields") = false →
  default_fields ctx = Some dflt →
  requested req ctx
  = Some (dflt +:+ String ","
            (default EmptyString (query_params req !! "additional_fields"))).
Proof.
  intros Hf Hd. unfold requested, get. rewrite Hd.
  destruct (query_params req !! "fields") as [s|]; simpl in *.
  - rewrite Hf. simpl.
    by destruct (query_params req !! "additional_fields").
  - by destruct (query_params req !! "additional_fields").
Qed.

Lemma requested_without_defaults req ctx :
  default_fields ctx = None →
  requested req ctx = query_params req !! "fields".
Proof.
  intros Hd. unfold requested, get. rewrite Hd.
  by destruct (query_params req !! "fields").
Qed.

Lemma append_separator_nonempty a sep b : a +:+ String sep b ≠ EmptyString.
Proof. by destruct a. Qed.

(** X1: a non-empty [fields] parameter is the selection, whatever the
    [default_fields] entry and the [additional_fields] parameter hold: the
    installed fields are the declared ones named by its pieces. *)
Theorem fields_parameter_takes_precedence declared ctx req selection :
  request ctx = Some req →
  query_params req !! "fields" = Some selection →
  selection ≠ EmptyString →
  __init__ declared ctx
  = Ok (filter (fun e => e.1 ∈ split "," selection) declared).
Proof.
  intros Hreq Hf Hne. apply (init_selected declared ctx req); try done.
  by apply requested_fields_parameter.
Qed.

(** X2: without a [default_fields] entry, a missing or empty [fields]
    parameter selects nothing, and the [additional_fields] parameter is
    not read: every declared field stays installed. *)
Theorem additional_fields_need_defaults declared ctx req :
  request ctx = Some req →
  default_fields ctx = None →
  truthy (query_params req !! "fields") = false →
  __init__ declared ctx = Ok declared.
Proof.
  intros Hreq Hd Hf. apply init_unselected. right. exists req.
  split; [done|]. by rewrite requested_without_defaults.
Qed.

(** X3: when the defaults apply, a declared field stays installed exactly
    when its name is a piece of [default_fields] or a piece of
    [additional_fields]. *)
Theorem additional_fields_extend_defaults declared ctx req dflt :
  request ctx = Some req →
  truthy (query_params req !! "fields") = false →
  default_fields ctx = Some dflt →
  __init__ declared ctx
  = Ok (filter
          (fun e =>
             e.1 ∈ split "," dflt
             ∨ e.1 ∈ split ","
                  (default EmptyString
                     (query_params req !! "additional_fields")))
          declared).
Proof.
  intros Hreq Hf Hd.
  rewrite (init_selected declared ctx req _ Hreq
             (requested_defaults req ctx dflt Hf Hd)
             (append_separator_nonempty _ _ _)).
  f_equal. apply filter_agree. intros e _.
  by rewrite split_app, elem_of_app.
Qed.

(** X4: construction keeps the declaration order and what each field
    carries: the installed fields are the declared list with some entries
    left out. *)
Theorem installed_fields_in_declaration_order declared ctx :
  ∃ fields, __init__ declared ctx = Ok fields ∧ fields `sublist_of` declared.
Proof.
  destruct (init_total declared ctx) as [allowed Hinit].
  eexists. split; [exact Hinit|]. apply sublist_filter.
Qed.

(** X5: only the set of names in a selection matters: two selections with
    the same pieces, in any order and with any repetition, install the
    same fields. *)
Theorem selection_order_irrelevant declared ctx1 ctx2 req1 req2 s1 s2 :
  request ctx1 = Some req1 → requested req1 ctx1 = Some s1 →
  s1 ≠ EmptyString →
  request ctx2 = Some req2 → requested req2 ctx2 = Some s2 →
  s2 ≠ EmptyString →
  (∀ n, n ∈ split "," s1 ↔ n ∈ split "," s2) →
  __init__ declared ctx1 = __init__ declared ctx2.
Proof.
  intros Hr1 Hs1 Hn1 Hr2 Hs2 Hn2 Hsame.
  rewrite (init_selected declared ctx1 req1 s1),
    (init_selected declared ctx2 req2 s2) by done.
  f_equal. apply filter_agree. intros e _. apply Hsame.
Qed.

End Selection.

(** With [fields] set, the reduced serializer installs [id] and [email]
    and reads neither the defaults nor [additional_fields]. *)
Lemma fields_parameter_takes_precedence_witness :
  ∃ fields,
    DynamicFieldsModelSerializer.__init__
      (SimpleUserSerializer.declared (Organization := unit))
      (context_of [("fields", "email,id"); ("additional_fields", "username")]
         (Some "first_name") None) = Ok fields
    ∧ DynamicFieldsModelSerializer.keys fields = ["id"; "email"].
Proof.
  eexists. split.
  - apply (fields_parameter_takes_precedence _ _
             {| query_params :=
                  list_to_map [("fields", "email,id");
                               ("additional_fields", "username")] |}
             "email,id"); [reflexivity|reflexivity|discriminate].
  - vm_compute. reflexivity.
Defined.

(** Without defaults, an empty [fields] and a set [additional_fields]
    leave the seven declared fields installed. *)
Lemma additional_fields_need_defaults_witness :
  DynamicFieldsModelSerializer.__init__
    (SimpleUserSerializer.declared (Organization := unit))
    (context_of [("fields", EmptyString); ("additional_fields", "id")]
       None None)
  = Ok SimpleUserSerializer.declared.
Proof.
  apply (additional_fields_need_defaults _ _
           {| query_params :=
                list_to_map [("fields", EmptyString);
                             ("additional_fields", "id")] |});
    reflexivity.
Defined.

(** Defaults [id,email] extended by [is_active,bogus]. *)
Lemma additional_fields_extend_defaults_witness :
  ∃ fields,
    DynamicFieldsModelSerializer.__init__
      (SimpleUserSerializer.declared (Organization := unit))
      (context_of [("additional_fields", "is_active,bogus")]
         (Some "id,email") None) = Ok fields
    ∧ DynamicFieldsModelSerializer.keys fields = ["id"; "email"; "is_active"].
Proof.
  eexists. split.
  - apply (additional_fields_extend_defaults _ _
             {| query_params :=
                  list_to_map [("additional_fields", "is_active,bogus")] |}
             "id,email"); reflexivity.
  - vm_compute. reflexivity.
Defined.

(** [id,email] and [email,id,email] select the same fields. *)
Lemma selection_order_irrelevant_witness :
  DynamicFieldsModelSerializer.__init__
    (SimpleUserSerializer.declared (Organization := unit))
    (context_of [("fields", "id,email")] None None)
  = DynamicFieldsModelSerializer.__init__
      (SimpleUserSerializer.declared (Organization := unit))
      (context_of [("fields", "email,id,email")] None None).
Proof.
  apply (selection_order_irrelevant _ _ _
           {| query_params := list_to_map [("fields", "id,email")] |}
           {| query_params := list_to_map [("fields", "email,id,email")] |}
           "id,email" "email,id,email");
    try reflexivity; try discriminate.
  intros n. change (split "," "id,email") with ["id"; "email"].
  change (split "," "email,id,email") with ["email"; "id"; "email"].
  rewrite !elem_of_cons, !elem_of_nil. tauto.
Defined.

(** ** Dictionaries and renderings *)

Lemma assoc_elem {A : Type} key (entries : list (string * A)) v :
  assoc key entries = Some v → key ∈ entries.*1.
Proof.
  induction entries as [|[k w] entries IH]; simpl; [done|].
  destruct (String.eqb_spec k key) as [->|_].
  - intros _. by left.
  - intros Hv. right. by apply IH.
Qed.

Lemma elem_assoc {A : Type} key (entries : list (string * A)) :
  key ∈ entries.*1 → is_Some (assoc key entries).
Proof.
  induction entries as [|[k w] entries IH]; simpl.
  - by intros ?%elem_of_nil.
  - destruct (String.eqb_spec k key) as [->|Hne]; [by eexists|].
    intros [?|Hin]%elem_of_cons; [done|by apply IH].
Qed.

Lemma assoc_NoDup {A : Type} key (entries : list (string * A)) v :
  NoDup entries.*1 → (key, v) ∈ entries → assoc key entries = Some v.
Proof.
  induction entries as [|[k w] entries IH]; simpl.
  - by intros _ ?%elem_of_nil.
  - intros [Hk Hnd]%NoDup_cons [[= -> ->]|Hin]%elem_of_cons.
    + by rewrite String.eqb_refl.
    + destruct (String.eqb_spec k key) as [->|_]; [|by apply IH].
      exfalso. apply Hk. apply list_elem_of_fmap. by exists (key, v).
Qed.

Lemma bind_ok {A B : Type} (a : A) (k : A → res B) : Ok a ≫= k = k a.
Proof. reflexivity. Qed.

(** Every entry of a rendering is the value of an installed field. *)
Lemma to_representation_entries {I : Type}
    (fields : list (string * (I → res value))) (instance : I) output k v :
  to_representation fields instance = Ok output →
  (k, v) ∈ output →
  ∃ g, (k, g) ∈ fields ∧ g instance = Ok v.
Proof.
  unfold to_representation. revert output.
  induction fields as [|[k' g'] fields IH]; intros output; simpl.
  - intros [= <-] ?%elem_of_nil. done.
  - destruct (g' instance) as [v'|e] eqn:Hg; simpl; [|done].
    destruct (sequence _) as [rest|e]; simpl; [|done].
    intros [= <-] [[= -> ->]|Hin]%elem_of_cons.
    + exists g'. split; [by left|done].
    + destruct (IH rest eq_refl Hin) as (g & Hg' & Hv).
      exists g. split; [by right|done].
Qed.

(** A rendering raises what one of its installed fields raises. *)
Lemma to_representation_raise {I : Type}
    (fields : list (string * (I → res value))) (instance : I) e :
  to_representation fields instance = Raise e →
  ∃ k g, (k, g) ∈ fields ∧ g instance = Raise e.
Proof.
  unfold to_representation.
  induction fields as [|[k g] fields IH]; simpl; [done|].
  destruct (g instance) as [v|e'] eqn:Hg; simpl.
  - destruct (sequence _) as [rest|e'']; simpl; [done|].
    intros [= ->]. destruct (IH eq_refl) as (k' & g' & Hin & Hr).
    exists k', g'. split; [by right|done].
  - intros [= ->]. exists k, g. split; [by left|done].
Qed.

(** Rendering a filtered field list is filtering the rendering. *)
Lemma to_representation_filter {I : Type} (P : string → Prop)
    `{!∀ n, Decision (P n)}
    (fields : list (string * (I → res value))) (instance : I) output :
  to_representation fields instance = Ok output →
  to_representation (filter (fun e => P e.1) fields) instance
  = Ok (filter (fun o => P o.1) output).
Proof.
  unfold to_representation. revert output.
  induction fields as [|[k g] fields IH]; intros output; simpl.
  - by intros [= <-].
  - destruct (g instance) as [v|e] eqn:Hg; simpl; [|done].
    destruct (sequence _) as [rest|e]; simpl; [|done].
    intros [= <-]. rewrite !filter_cons. simpl.
    destruct (decide (P k)); simpl; rewrite ?Hg, (IH rest eq_refl); done.
Qed.

(** ** More on the user representation *)

Section UserRendering.

Context {Organization : Type}.
Variable organization_serializer : Organization → value.
Variable image_urls : string → option string → value.
Implicit Types (user : User Organization) (db : Database) (ctx : Context).

Abbreviation get_user_grades :=
  (UserSerializer.get_user_grades (Organization := Organization)).
Abbreviation get_user_roles :=
  (UserSerializer.get_user_roles (Organization := Organization)).
Abbreviation declared :=
  (UserSerializer.declared organization_serializer image_urls).
Abbreviation field_value :=
  (UserSerializer.field_value organization_serializer image_urls).
Abbreviation data :=
  (UserSerializer.data organization_serializer image_urls).

Lemma profile_image_total user :
  UserSerializer.get_profile_image image_urls user
  = Ok (image_urls (username user)
          match profile user with
          | Some p => profile_image_uploaded_at p
          | None => None
          end).
Proof.
  unfold UserSerializer.get_profile_image, UserSerializer.user_profile.
  by destruct (profile user).
Qed.

Lemma profile_source_total attr user :
  ∃ v, UserSerializer.profile_source attr user = Ok v.
Proof.
  unfold UserSerializer.profile_source, UserSerializer.user_profile.
  destruct (profile user); by eexists.
Qed.

(** Among the declared fields only [grades] can raise. *)
Lemma user_field_raises db ctx user k g e :
  (k, g) ∈ declared db ctx → g user = Raise e →
  k = "grades" ∧ get_user_grades db ctx user = Raise e.
Proof.
  unfold UserSerializer.declared. intros Hin Hraise.
  repeat (apply elem_of_cons in Hin as [[= -> ->]|Hin];
          [first [ discriminate Hraise
                 | by rewrite profile_image_total in Hraise
                 | by destruct (profile_source_total city user) as [? Hv];
                   rewrite Hv in Hraise
                 | by destruct (profile_source_total title user) as [? Hv];
                   rewrite Hv in Hraise
                 | by destruct (profile_source_total country user) as [? Hv];
                   rewrite Hv in Hraise
                 | by destruct (profile_source_total
                                  (fun p => Some (name p)) user) as [? Hv];
                   rewrite Hv in Hraise
                 | done ]|]).
  by apply elem_of_nil in Hin.
Qed.

(** The rendering raises only what [get_user_grades] raises, and only when
    [grades] is installed. *)
Lemma data_raise db ctx user e :
  data db ctx user = Raise e →
  get_user_grades db ctx user = Raise e
  ∧ ∃ fields,
      DynamicFieldsModelSerializer.__init__ (declared db ctx) ctx = Ok fields
      ∧ "grades" ∈ DynamicFieldsModelSerializer.keys fields.
Proof.
  unfold UserSerializer.data.
  destruct (init_total (declared db ctx) ctx) as [allowed Hinit].
  rewrite Hinit, bind_ok. intros Hraise.
  apply to_representation_raise in Hraise as (k & g & Hin & Hg).
  pose proof Hin as Hin'. apply list_elem_of_filter in Hin' as [_ Hdecl].
  destruct (user_field_raises db ctx user k g e Hdecl Hg) as [-> Hgrades].
  split; [done|]. eexists. split; [done|].
  unfold DynamicFieldsModelSerializer.keys. apply list_elem_of_fmap.
  by exists ("grades", g).
Qed.

(** X6: with a gradebook row whose breakdown text decodes to a JSON object
    that has a [section_breakdown] member, that member is returned under
    [section_breakdown], beside the grade and the proforma grade of the
    row. *)
Theorem grades_with_section_breakdown db ctx user course row entries item :
  course_id ctx = Some course →
  student_gradebooks db !! (pk user, course) = Some row →
  json.loads (StudentGradebook.grade_summary row) = Ok (VDict entries) →
  assoc "section_breakdown" entries = Some item →
  get_user_grades db ctx user
  = Ok (VDict [("grade", VFloat (StudentGradebook.grade row));
               ("proforma_grade",
                VFloat (StudentGradebook.proforma_grade row));
               ("section_breakdown", item)]).
Proof.
  intros Hc Hrow Hloads Hitem.
  rewrite (grades_with_row db ctx user course row Hc Hrow), Hloads. simpl.
  rewrite bool_decide_eq_true_2 by (by eapply assoc_elem).
  by rewrite Hitem.
Qed.

(** X7: [get_user_grades] raises in two ways only, both with a course in
    scope and a gradebook row for the user and the course: either the
    decoder raised, on the breakdown text of the row, something that the
    handler does not catch, and that is passed on; or the text decoded to
    something that is not a JSON object and [TypeError] is raised.  What
    the method does itself raises nothing else: a missing row and a text
    rejected with [ValueError] are caught, and a decoded JSON object never
    makes it raise, with or without the member (no [KeyError]). *)
Theorem grades_raise_only_on_breakdown db ctx user e :
  get_user_grades db ctx user = Raise e →
  ∃ course row,
    course_id ctx = Some course
    ∧ student_gradebooks db !! (pk user, course) = Some row
    ∧ ((json.loads (StudentGradebook.grade_summary row) = Raise e
        ∧ e ≠ ValueError ∧ e ≠ ObjectDoesNotExist)
       ∨ (e = TypeError
          ∧ ∃ decoded,
              json.loads (StudentGradebook.grade_summary row) = Ok decoded
              ∧ ∀ entries, decoded ≠ VDict entries)).
Proof.
  destruct (course_id ctx) as [course|] eqn:Hc;
    [|by rewrite (grades_without_course db ctx user Hc)].
  destruct (student_gradebooks db !! (pk user, course)) as [row|] eqn:Hrow;
    [|by rewrite (grades_without_row db ctx user course Hc Hrow)].
  rewrite (grades_with_row db ctx user course row Hc Hrow). simpl.
  intros Hraise. exists course, row. split; [done|]. split; [done|].
  destruct (json.loads _) as [decoded|e'] eqn:Hloads.
  - right.
    assert (e = TypeError ∧ ∀ entries, decoded ≠ VDict entries) as [-> Hno].
    { destruct decoded as [|b|z|repr|s|items|entries]; simpl in Hraise;
        try (injection Hraise as <-; by split).
      - destruct (substring_of _ _); [|done].
        injection Hraise as <-. by split.
      - destruct (existsb _ items); [|done].
        injection Hraise as <-. by split.
      - exfalso. destruct (bool_decide _) eqn:Hin; [|done].
        apply bool_decide_eq_true_1, elem_assoc in Hin as [item Hitem].
        by rewrite Hitem in Hraise. }
    split; [done|]. by exists decoded.
  - left. destruct e'; try done; injection Hraise as <-; by repeat split.
Qed.

(** [get_user_grades] reads one gradebook row only, the one of the user
    and the course in scope. *)
Lemma grades_read_one_row db1 db2 ctx user :
  (∀ course, course_id ctx = Some course →
     student_gradebooks db1 !! (pk user, course)
     = student_gradebooks db2 !! (pk user, course)) →
  get_user_grades db1 ctx user = get_user_grades db2 ctx user.
Proof.
  intros Hrow. unfold UserSerializer.get_user_grades.
  destruct (course_id ctx) as [course|]; [|done].
  unfold run, try_except, body_bind, eval, UserSerializer.objects_get.
  by rewrite (Hrow course eq_refl).
Qed.

(** X8: writing or deleting the gradebook row of another user or of
    another course than the one in scope, and replacing the role
    assignments, leaves the result of [get_user_grades] unchanged. *)
Theorem grades_ignore_other_rows db ctx user key row roles :
  (∀ course, course_id ctx = Some course → key ≠ (pk user, course)) →
  get_user_grades
    (with_roles (with_gradebooks db (<[key := row]> (student_gradebooks db)))
       roles) ctx user
  = get_user_grades db ctx user
  ∧ get_user_grades
      (with_roles (with_gradebooks db (delete key (student_gradebooks db)))
         roles) ctx user
    = get_user_grades db ctx user.
Proof.
  intros Hkey. split; apply grades_read_one_row; intros course Hc; simpl.
  - by rewrite lookup_insert_ne by (by apply Hkey).
  - by rewrite lookup_delete_ne by (by apply Hkey).
Qed.

(** X9: the roles listed for a course are among the roles listed when no
    course is in scope. *)
Theorem course_roles_among_all_roles db ctx user :
  get_user_roles db ctx user
  ⊆ get_user_roles db (with_course ctx None) user.
Proof.
  unfold UserSerializer.get_user_roles. simpl. intros r.
  rewrite !elem_of_remove_dups, !list_elem_of_fmap.
  intros (a & -> & Ha). exists a. split; [done|].
  destruct (course_id ctx); [|done].
  by apply list_elem_of_filter in Ha as [_ Ha].
Qed.

(** X10: an assignment of another user, wherever it stands in the table,
    changes nothing to the roles listed for this user. *)
Theorem roles_ignore_other_users db ctx user before a after :
  CourseAccessRole.user a ≠ pk user →
  get_user_roles (with_roles db (before ++ a :: after)) ctx user
  = get_user_roles (with_roles db (before ++ after)) ctx user.
Proof.
  intros Hother. unfold UserSerializer.get_user_roles. simpl.
  rewrite !filter_app, filter_cons.
  by destruct (decide (CourseAccessRole.user a = pk user)).
Qed.

(** X11: [get_profile_image] never raises: the helper receives the
    username and the upload time of the profile, or no upload time when
    the user has no profile. *)
Theorem profile_image_never_raises user :
  UserSerializer.get_profile_image image_urls user
  = Ok (image_urls (username user)
          match profile user with
          | Some p => profile_image_uploaded_at p
          | None => None
          end).
Proof. apply profile_image_total. Qed.

(** X12: every entry of a rendering of the user serializer holds, under
    the name of a declared field, the value that field computes for the
    user. *)
Theorem rendered_entries_are_field_values db ctx user output k v :
  data db ctx user = Ok output →
  (k, v) ∈ output →
  field_value db ctx k user = Some (Ok v).
Proof.
  unfold UserSerializer.data, UserSerializer.field_value.
  destruct (init_total (declared db ctx) ctx) as [allowed Hinit].
  rewrite Hinit, bind_ok. intros Hout Hin.
  destruct (to_representation_entries _ _ _ _ _ Hout Hin) as (g & Hg & Hv).
  apply list_elem_of_filter in Hg as [_ Hg].
  rewrite (assoc_NoDup k (declared db ctx) g); [by rewrite <- Hv| |done].
  by apply (bool_decide_unpack _).
Qed.

(** X13: a rendering of the user serializer fails only through [grades]:
    what it raises is what [get_user_grades] raises, and [grades] is then
    among the installed fields. *)
Theorem rendering_fails_only_through_grades db ctx user e :
  data db ctx user = Raise e →
  get_user_grades db ctx user = Raise e
  ∧ ∃ fields,
      DynamicFieldsModelSerializer.__init__ (declared db ctx) ctx = Ok fields
      ∧ "grades" ∈ DynamicFieldsModelSerializer.keys fields.
Proof. apply data_raise. Qed.

(** X14: without a course in scope the user serializer renders every
    user, whatever the tables hold and whatever is selected. *)
Theorem rendering_without_course_succeeds db ctx user :
  course_id ctx = None → ∃ output, data db ctx user = Ok output.
Proof.
  intros Hc. destruct (data db ctx user) as [output|e] eqn:Hdata;
    [by exists output|].
  apply data_raise in Hdata as [Hraise _].
  by rewrite (grades_without_course db ctx user Hc) in Hraise.
Qed.

(** X16: a selection that does not name [grades] makes the user serializer
    render every user, whatever the gradebook holds. *)
Theorem rendering_without_grades_succeeds db ctx user req selection :
  request ctx = Some req →
  DynamicFieldsModelSerializer.requested req ctx = Some selection →
  selection ≠ EmptyString →
  "grades" ∉ split "," selection →
  ∃ output, data db ctx user = Ok output.
Proof.
  intros Hreq Hsel Hne Hout.
  destruct (data db ctx user) as [output|e] eqn:Hdata; [by exists output|].
  apply data_raise in Hdata as (_ & fields & Hinit & Hin).
  rewrite (init_selected _ ctx req selection) in Hinit by done.
  injection Hinit as <-. exfalso. apply Hout.
  unfold DynamicFieldsModelSerializer.keys in Hin.
  apply list_elem_of_fmap in Hin as (f & Hk & Hf).
  apply list_elem_of_filter in Hf as [Hs _]. by rewrite Hk.
Qed.

End UserRendering.

(** X15: the reduced serializer never raises: for every context and user
    it renders the seven attributes of the user with some entries left
    out, in declaration order. *)
Theorem simple_rendering_never_raises {Organization : Type}
    (ctx : Context) (user : User Organization) :
  ∃ output,
    SimpleUserSerializer.data ctx user = Ok output
    ∧ output `sublist_of` simple_representation user.
Proof.
  unfold SimpleUserSerializer.data.
  destruct (init_total (SimpleUserSerializer.declared
                          (Organization := Organization)) ctx)
    as [allowed Hinit].
  rewrite Hinit, bind_ok.
  pose proof (to_representation_filter (fun n => allowed n)
                SimpleUserSerializer.declared user
                (simple_representation user) eq_refl) as Hrender.
  cbv beta in Hrender. rewrite Hrender.
  eexists. split; [done|]. apply sublist_filter.
Qed.

(** ** The further properties on sample data *)

(** Alice's row with a breakdown that has a [section_breakdown] member. *)
Lemma grades_with_section_breakdown_witness :
  UserSerializer.get_user_grades
    (tables (json_text "{'percent': 0.85, 'section_breakdown': [1, 2]}"))
    (context_of [] None (Some "edX/DemoX/2015")) alice
  = Ok (VDict [("grade", VFloat "0.85"); ("proforma_grade", VFloat "0.9");
               ("section_breakdown", VList [VInt 1; VInt 2])]).
Proof.
  apply (grades_with_section_breakdown
           (tables (json_text
                      "{'percent': 0.85, 'section_breakdown': [1, 2]}"))
           (context_of [] None (Some "edX/DemoX/2015")) alice
           "edX/DemoX/2015"
           (gradebook_row
              (json_text "{'percent': 0.85, 'section_breakdown': [1, 2]}"))
           [("percent", VFloat "0.85");
            ("section_breakdown", VList [VInt 1; VInt 2])]).
  - reflexivity.
  - reflexivity.
  - vm_compute. reflexivity.
  - reflexivity.
Defined.

(** The breakdown text [5] decodes to a number: the method raises
    [TypeError], with a course in scope and a row in the table. *)
Lemma grades_raise_only_on_breakdown_witness :
  ∃ course row,
    course_id (context_of [] None (Some "edX/DemoX/2015")) = Some course
    ∧ student_gradebooks (tables "5") !! (pk alice, course) = Some row
    ∧ ((json.loads (StudentGradebook.grade_summary row) = Raise TypeError
        ∧ TypeError ≠ ValueError ∧ TypeError ≠ ObjectDoesNotExist)
       ∨ (TypeError = TypeError
          ∧ ∃ decoded,
              json.loads (StudentGradebook.grade_summary row) = Ok decoded
              ∧ ∀ entries, decoded ≠ VDict entries)).
Proof.
  apply (grades_raise_only_on_breakdown (tables "5")
           (context_of [] None (Some "edX/DemoX/2015")) alice TypeError).
  vm_compute. reflexivity.
Defined.

(** A row written for bob, and bob's roles replaced, leave alice's grades
    in the demo course as they are. *)
Lemma grades_ignore_other_rows_witness :
  UserSerializer.get_user_grades
    (with_roles
       (with_gradebooks (tables "{}")
          (<[(8%Z, "edX/DemoX/2015") := gradebook_row "{oops"]>
             (student_gradebooks (tables "{}"))))
       [])
    (context_of [] None (Some "edX/DemoX/2015")) alice
  = UserSerializer.get_user_grades (tables "{}")
      (context_of [] None (Some "edX/DemoX/2015")) alice.
Proof.
  apply (grades_ignore_other_rows (tables "{}")
           (context_of [] None (Some "edX/DemoX/2015")) alice
           (8%Z, "edX/DemoX/2015") (gradebook_row "{oops") []).
  intros course [= <-]. discriminate.
Defined.

(** An assignment of bob between alice's changes nothing for alice. *)
Lemma roles_ignore_other_users_witness :
  UserSerializer.get_user_roles
    (with_roles (tables "{}")
       ([role_row 7 "edX/DemoX/2015" "instructor"]
        ++ role_row 8 "edX/DemoX/2015" "observer"
           :: [role_row 7 "edX/Algebra/2015" "staff"]))
    no_request alice
  = UserSerializer.get_user_roles
      (with_roles (tables "{}")
         ([role_row 7 "edX/DemoX/2015" "instructor"]
          ++ [role_row 7 "edX/Algebra/2015" "staff"]))
      no_request alice.
Proof.
  apply (roles_ignore_other_users (tables "{}") no_request alice
           [role_row 7 "edX/DemoX/2015" "instructor"]
           (role_row 8 "edX/DemoX/2015" "observer")
           [role_row 7 "edX/Algebra/2015" "staff"]).
  discriminate.
Defined.

(** In bob's full rendering the entry [courses_enrolled] is the attached
    count, which is what the field computes. *)
Lemma rendered_entries_are_field_values_witness :
  UserSerializer.field_value (fun _ : unit => VNull)
    (get_profile_image_urls_by_username image_url) (tables "{}") no_request
    "courses_enrolled" bob
  = Some (Ok (VInt 5)).
Proof.
  eapply (rendered_entries_are_field_values (fun _ : unit => VNull)
            (get_profile_image_urls_by_username image_url) (tables "{}") no_request bob).
  - vm_compute. reflexivity.
  - do 14 right. left.
Defined.

(** With the breakdown text [null] the rendering of alice in the demo
    course raises what [get_user_grades] raises. *)
Lemma rendering_fails_only_through_grades_witness :
  UserSerializer.get_user_grades (tables "null")
    (context_of [] None (Some "edX/DemoX/2015")) alice
  = Raise TypeError.
Proof.
  apply (rendering_fails_only_through_grades (fun _ : unit => VNull)
           (get_profile_image_urls_by_username image_url) (tables "null")
           (context_of [] None (Some "edX/DemoX/2015")) alice TypeError).
  vm_compute. reflexivity.
Defined.

(** The same tables without a course in scope: alice is rendered. *)
Lemma rendering_without_course_succeeds_witness :
  ∃ output,
    UserSerializer.data (fun _ : unit => VNull)
      (get_profile_image_urls_by_username image_url) (tables "null")
      (context_of [] None None) alice
    = Ok output.
Proof.
  apply (rendering_without_course_succeeds (fun _ : unit => VNull)
           (get_profile_image_urls_by_username image_url) (tables "null")
           (context_of [] None None) alice).
  reflexivity.
Defined.

(** The same tables with the course in scope and [grades] not selected:
    alice is rendered. *)
Lemma rendering_without_grades_succeeds_witness :
  ∃ output,
    UserSerializer.data (fun _ : unit => VNull)
      (get_profile_image_urls_by_username image_url) (tables "null")
      (context_of [("fields", "id,roles")] None (Some "edX/DemoX/2015"))
      alice
    = Ok output.
Proof.
  apply (rendering_without_grades_succeeds (fun _ : unit => VNull)
           (get_profile_image_urls_by_username image_url) (tables "null")
           (context_of [("fields", "id,roles")] None
              (Some "edX/DemoX/2015"))
           alice
           {| query_params := list_to_map [("fields", "id,roles")] |}
           "id,roles").
  - reflexivity.
  - vm_compute. reflexivity.
  - discriminate.
  - by apply (bool_decide_unpack _).
Defined.
